(** * MFO Offers API: a shallow embedding of [main.py] and [schemas.py]

    The service is a FastAPI application over a MongoDB collection named
    [offer].  Python values are embedded as the inductive [value]; dicts
    keep their insertion order; floats are IEEE binary64 ([PrimFloat]);
    strings are UTF-8 byte strings.  Handlers run in a state-and-exception
    monad over the process state (the global [db] handle and the
    environment).

    Three things the service calls are not in its sources.  The scalar
    validators of pydantic and the regular-expression engine of the store
    are interfaces ([Pydantic], [Pcre]), so that the statements hold of any
    implementation with the stated laws; [database.py] and the store behind
    it are modelled in [Mongo] from what the specification says of them. *)

From Stdlib Require Import ZArith List String Ascii Bool Lia.
From Stdlib Require Import PrimFloat FloatOps SpecFloat.
From Stdlib Require Import DecimalString.
Import ListNotations.

#[local] Set Warnings "-inexact-float,-register-all".
#[local] Open Scope string_scope.
#[local] Open Scope Z_scope.

(** ** Python values *)

Module Py.

(** BSON object identifiers are opaque to the service; they are numbered. *)
Definition ObjectId := N.

Inductive value : Type :=
| VNone
| VBool (b : bool)
| VInt (z : Z)
| VFloat (f : float)
| VStr (s : string)
| VOid (i : ObjectId)
| VList (l : list value)
| VDict (d : list (string * value)).

(** A [dict] keeps its keys unique and in insertion order. *)
Definition dict := list (string * value).

Fixpoint get (k : string) (d : dict) : option value :=
  match d with
  | [] => None
  | (k', v) :: d' => if String.eqb k k' then Some v else get k d'
  end.

(** [d[k] = v] *)
Fixpoint setitem (k : string) (v : value) (d : dict) : dict :=
  match d with
  | [] => [(k, v)]
  | (k', v') :: d' =>
      if String.eqb k k' then (k, v) :: d' else (k', v') :: setitem k v d'
  end.

(** [d.setdefault(k, v)], as the dict it leaves behind. *)
Definition setdefault (k : string) (v : value) (d : dict) : dict :=
  match get k d with
  | Some _ => d
  | None => setitem k v d
  end.

(** [d.update(e)] *)
Definition update (d e : dict) : dict :=
  fold_left (fun acc kv => setitem (fst kv) (snd kv) acc) e d.

(** [d[k].update(e)] for a dict-valued entry [d[k]]; a missing key is a
    [KeyError] and a non-dict entry an [AttributeError], both [None] here. *)
Definition update_at (k : string) (e : dict) (d : dict) : option dict :=
  match get k d with
  | Some (VDict inner) => Some (setitem k (VDict (update inner e)) d)
  | _ => None
  end.

Fixpoint remove (k : string) (d : dict) : dict :=
  match d with
  | [] => []
  | (k', v) :: d' => if String.eqb k k' then d' else (k', v) :: remove k d'
  end.

(** [d.pop(k)]: the value and the dict left behind, [None] for [KeyError]. *)
Definition pop (k : string) (d : dict) : option (value * dict) :=
  match get k d with
  | Some v => Some (v, remove k d)
  | None => None
  end.

Definition keys (d : dict) : list string := map fst d.

(** *** UTF-8 aware slicing: [s[:n]] counts code points, not bytes. *)

Definition is_continuation (a : ascii) : bool :=
  let n := N_of_ascii a in (128 <=? n)%N && (n <? 192)%N.

Fixpoint slice_to (n : nat) (s : string) : string :=
  match s with
  | EmptyString => EmptyString
  | String c s' =>
      if is_continuation c then String c (slice_to n s')
      else match n with
           | O => EmptyString
           | S n' => String c (slice_to n' s')
           end
  end.

(** *** Rendering numbers *)

Definition str_of_Z (z : Z) : string := NilZero.string_of_int (Z.to_int z).

Definition hex_digit (n : N) : ascii :=
  if (n <? 10)%N then ascii_of_N (48 + n) else ascii_of_N (87 + n).

Fixpoint hex_fixed (width : nat) (n : N) : string :=
  match width with
  | O => EmptyString
  | S w => hex_fixed w (n / 16) ++ String (hex_digit (n mod 16)) EmptyString
  end.

(** [str(ObjectId)] is 24 hexadecimal digits. *)
Definition str_of_oid (i : ObjectId) : string := hex_fixed 24 i.

End Py.
Import Py.

(** ** Outcomes of a computation

    [Raise] is a Python exception.  [Beyond] marks a step that falls outside
    what is modelled: a query the store model does not cover, or [str] of a
    value other than an identifier, a string or an integer. *)

Inductive field_error : Type :=
| Missing
| WrongType
| GreaterThanEqual
| LessThanEqual.

Definition errors := list (string * field_error).

Inductive exn : Type :=
| HTTPException (status_code : Z) (detail : string)
| ValidationError (title : string) (errs : errors)
| KeyError (key : string)
| Exception (msg : string).

Inductive outcome (A : Type) : Type :=
| Ok (a : A)
| Raise (e : exn)
| Beyond.

Arguments Ok {A} a.
Arguments Raise {A} e.
Arguments Beyond {A}.

Definition obind {A B} (m : outcome A) (f : A -> outcome B) : outcome B :=
  match m with
  | Ok a => f a
  | Raise e => Raise e
  | Beyond => Beyond
  end.

(** Stateful computations over a state [S]: the state reached is returned
    also when an exception is raised, as mutations are not rolled back. *)
Definition M (S A : Type) : Type := S -> outcome A * S.

Definition ret {S A} (a : A) : M S A := fun s => (Ok a, s).

Definition bind {S A B} (m : M S A) (f : A -> M S B) : M S B :=
  fun s =>
    match m s with
    | (Ok a, s') => f a s'
    | (Raise e, s') => (Raise e, s')
    | (Beyond, s') => (Beyond, s')
    end.

Definition raise {S A} (e : exn) : M S A := fun s => (Raise e, s).

Definition lift {S A} (o : outcome A) : M S A := fun s => (o, s).

Definition gets {S A} (f : S -> A) : M S A := fun s => (Ok (f s), s).

Definition modify {S} (f : S -> S) : M S unit := fun s => (Ok tt, f s).

(** [try: body  except Exception as e: handler e] *)
Definition try_except {S A} (body : M S A) (handler : exn -> M S A) : M S A :=
  fun s =>
    match body s with
    | (Raise e, s') => handler e s'
    | r => r
    end.

Declare Scope py_scope.
Delimit Scope py_scope with py.
Notation "x <- m ;; k" := (bind m (fun x => k))
  (at level 61, m at next level, right associativity) : py_scope.
Notation "m ;; k" := (bind m (fun _ => k))
  (at level 61, right associativity) : py_scope.
#[local] Open Scope py_scope.

Fixpoint mapM {S A B} (f : A -> M S B) (l : list A) : M S (list B) :=
  match l with
  | [] => ret []
  | a :: l' => b <- f a ;; bs <- mapM f l' ;; ret (b :: bs)
  end.

(** The same traversal when no step touches the state. *)
Fixpoint collect {A B} (f : A -> outcome B) (l : list A) : outcome (list B) :=
  match l with
  | [] => Ok []
  | a :: l' =>
      obind (f a) (fun b => obind (collect f l') (fun bs => Ok (b :: bs)))
  end.

(** ** Validation (pydantic)

    What pydantic-core accepts as an [int], a [float], a [str] or an
    [HttpUrl] is the library's business (its lax mode also converts some
    values of other types), so the scalar validators are an interface.  The
    laws are the conversions the service relies on: a value that already has
    the target type is accepted unchanged. *)

Class Pydantic : Type := {
  int_validator : value -> option Z;
  float_validator : value -> option float;
  str_validator : value -> option string;
  (** [HttpUrl]: the normalised URL, or [None] when the input does not parse. *)
  url_validator : value -> option string;
  (** [str(e)] for a [ValidationError] of the model called [title]. *)
  error_text : string -> errors -> string;
  int_validator_int : forall z, int_validator (VInt z) = Some z;
  float_validator_float : forall f, float_validator (VFloat f) = Some f;
  str_validator_str : forall s, str_validator (VStr s) = Some s
}.

Module Schemas.

Record Offer : Type := {
  name : string;
  apr : float;
  min_amount : Z;
  max_amount : Z;
  term_min_days : Z;
  term_max_days : Z;
  approval_rate : option float;
  rating : option float;
  description : option string;
  link : option string;
  tags : list string
}.

(** The declared fields, in declaration order. *)
Definition Offer_fields : list string :=
  ["name"; "apr"; "min_amount"; "max_amount"; "term_min_days";
   "term_max_days"; "approval_rate"; "rating"; "description"; "link"; "tags"].

(** Validation collects the errors of every field before it fails. *)
Definition validated (A : Type) : Type := (errors + A)%type.

Definition ap {A B} (f : validated (A -> B)) (x : validated A) : validated B :=
  match f, x with
  | inl e1, inl e2 => inl (e1 ++ e2)%list
  | inl e1, inr _ => inl e1
  | inr _, inl e2 => inl e2
  | inr g, inr a => inr (g a)
  end.

Notation "f <*> x" := (ap f x) (at level 50, left associativity).

Definition field_validator (A : Type) : Type := value -> field_error + A.

(** [Field(..., ge=lo, le=hi)]; bounds are checked [le] first, then [ge]. *)
Definition check_int (ge le : option Z) (z : Z) : field_error + Z :=
  if match le with Some hi => negb (z <=? hi) | None => false end
  then inl LessThanEqual
  else if match ge with Some lo => negb (lo <=? z) | None => false end
  then inl GreaterThanEqual
  else inr z.

Definition check_float (ge le : option float) (f : float) : field_error + float :=
  if match le with Some hi => negb (PrimFloat.leb f hi) | None => false end
  then inl LessThanEqual
  else if match ge with Some lo => negb (PrimFloat.leb lo f) | None => false end
  then inl GreaterThanEqual
  else inr f.

Section Validation.
Context {P : Pydantic}.

Definition int_field (ge le : option Z) : field_validator Z :=
  fun v => match int_validator v with
           | Some z => check_int ge le z
           | None => inl WrongType
           end.

Definition float_field (ge le : option float) : field_validator float :=
  fun v => match float_validator v with
           | Some f => check_float ge le f
           | None => inl WrongType
           end.

Definition str_field : field_validator string :=
  fun v => match str_validator v with
           | Some s => inr s
           | None => inl WrongType
           end.

Definition url_field : field_validator string :=
  fun v => match url_validator v with
           | Some s => inr s
           | None => inl WrongType
           end.

Fixpoint str_items (l : list value) : option (list string) :=
  match l with
  | [] => Some []
  | v :: l' =>
      match str_validator v, str_items l' with
      | Some s, Some ss => Some (s :: ss)
      | _, _ => None
      end
  end.

(** [List[str]] *)
Definition str_list_field : field_validator (list string) :=
  fun v => match v with
           | VList l => match str_items l with
                        | Some ss => inr ss
                        | None => inl WrongType
                        end
           | _ => inl WrongType
           end.

Definition at_field {A} (k : string) (r : field_error + A) : validated A :=
  match r with
  | inl e => inl [(k, e)]
  | inr a => inr a
  end.

(** [k: T = Field(...)] *)
Definition required {A} (k : string) (f : field_validator A) (d : dict)
  : validated A :=
  match get k d with
  | Some v => at_field k (f v)
  | None => inl [(k, Missing)]
  end.

(** [k: Optional[T] = Field(None, ...)] *)
Definition optional {A} (k : string) (f : field_validator A) (d : dict)
  : validated (option A) :=
  match get k d with
  | None | Some VNone => inr None
  | Some v => at_field k (match f v with inl e => inl e | inr a => inr (Some a) end)
  end.

(** [k: T = Field(default_factory=...)] *)
Definition defaulted {A} (k : string) (f : field_validator A) (dflt : A)
  (d : dict) : validated A :=
  match get k d with
  | Some v => at_field k (f v)
  | None => inr dflt
  end.

(** The model built from the keyword arguments [d]: keys of [d] that are
    not fields of the model are ignored
    (pydantic's default [extra='ignore']). *)
Definition Offer_validate (d : dict) : validated Offer :=
  inr Build_Offer
    <*> required "name" str_field d
    <*> required "apr" (float_field (Some 0%float) None) d
    <*> required "min_amount" (int_field (Some 0) None) d
    <*> required "max_amount" (int_field (Some 0) None) d
    <*> required "term_min_days" (int_field (Some 1) None) d
    <*> required "term_max_days" (int_field (Some 1) None) d
    <*> optional "approval_rate" (float_field (Some 0%float) (Some 100%float)) d
    <*> optional "rating" (float_field (Some 0%float) (Some 5%float)) d
    <*> optional "description" str_field d
    <*> optional "link" url_field d
    <*> defaulted "tags" str_list_field [] d.

End Validation.

Definition dump_opt {A} (f : A -> value) (o : option A) : value :=
  match o with
  | Some a => f a
  | None => VNone
  end.

(** [o.model_dump()] *)
Definition model_dump (o : Offer) : dict :=
  [("name", VStr (name o));
   ("apr", VFloat (apr o));
   ("min_amount", VInt (min_amount o));
   ("max_amount", VInt (max_amount o));
   ("term_min_days", VInt (term_min_days o));
   ("term_max_days", VInt (term_max_days o));
   ("approval_rate", dump_opt VFloat (approval_rate o));
   ("rating", dump_opt VFloat (rating o));
   ("description", dump_opt VStr (description o));
   ("link", dump_opt VStr (link o));
   ("tags", VList (map VStr (tags o)))].

End Schemas.
Import Schemas.

(** ** The example schemas of [schemas.py]

    [User] and [Product] have [bool] fields; what pydantic accepts as a
    [bool] is one more scalar validator of the library. *)

Class PydanticBool : Type := {
  bool_validator : value -> option bool;
  bool_validator_bool : forall b, bool_validator (VBool b) = Some b
}.

Module ExampleSchemas.

Definition bool_field {B : PydanticBool} : field_validator bool :=
  fun v => match bool_validator v with
           | Some b => inr b
           | None => inl WrongType
           end.

Module UserModel.

Record User : Type := {
  name : string;
  email : string;
  address : string;
  age : option Z;
  is_active : bool
}.

Definition User_validate {P : Pydantic} {B : PydanticBool} (d : dict)
  : validated User :=
  inr Build_User
    <*> required "name" str_field d
    <*> required "email" str_field d
    <*> required "address" str_field d
    <*> optional "age" (int_field (Some 0) (Some 120)) d
    <*> defaulted "is_active" bool_field true d.

End UserModel.

Module ProductModel.

Record Product : Type := {
  title : string;
  description : option string;
  price : float;
  category : string;
  in_stock : bool
}.

Definition Product_validate {P : Pydantic} {B : PydanticBool} (d : dict)
  : validated Product :=
  inr Build_Product
    <*> required "title" str_field d
    <*> optional "description" str_field d
    <*> required "price" (float_field (Some 0%float) None) d
    <*> required "category" str_field d
    <*> defaulted "in_stock" bool_field true d.

End ProductModel.

End ExampleSchemas.

(** ** Regular expressions

    The store matches [$regex] patterns with a PCRE engine, which is not part
    of the service.  The interface fixes what the service relies on: whether
    a pattern compiles under given options, whether it matches somewhere in a
    subject, and the engine's case folding.  The law states the one fact
    about pattern syntax that holds of every such engine: a pattern without
    metacharacters stands for itself, and under option [i] it is found in a
    subject exactly when its folded form occurs in the folded subject. *)

Fixpoint contains (needle hay : string) : bool :=
  String.prefix needle hay ||
  match hay with
  | EmptyString => false
  | String _ hay' => contains needle hay'
  end.

Definition metacharacters : list ascii := list_ascii_of_string "\^$.[]|()?*+{}".

Definition is_meta (c : ascii) : bool := existsb (Ascii.eqb c) metacharacters.

Definition literal (p : string) : bool :=
  forallb (fun c => negb (is_meta c)) (list_ascii_of_string p).

Class Pcre : Type := {
  regex_valid : string -> string -> bool;
  regex_search : string -> string -> string -> bool;
  casefold : string -> string;
  regex_valid_literal : forall p, literal p = true -> regex_valid p "i" = true;
  regex_search_literal : forall p s,
    literal p = true ->
    regex_search p "i" s = contains (casefold p) (casefold s)
}.

(** ** The document store

    [database.py] and the MongoDB server behind it are not among the sources;
    this module is their model. *)

Module Mongo.

Definition is_number (v : value) : bool :=
  match v with
  | VInt _ | VFloat _ => true
  | _ => false
  end.

(** Exact comparison of an integer with a binary64 float that is not NaN. *)
Definition compare_Z_float (z : Z) (f : float) : comparison :=
  match Prim2SF f with
  | S754_nan => Gt
  | S754_infinity s => if s then Gt else Lt
  | S754_zero _ => z ?= 0
  | S754_finite s m e =>
      let sm := if s then Z.neg m else Z.pos m in
      if 0 <=? e then z ?= sm * 2 ^ e else z * 2 ^ (- e) ?= sm
  end.

Definition not_gt (c : comparison) : bool :=
  match c with
  | Gt => false
  | _ => true
  end.

(** Modelled from the spec: the numeric order of the store that
    [get_documents] of [database.py] queries (neither is among the sources),
    behind "keep records with [apr] <= value" and "[rating] >= value"
    (sections 4.1 and 8).  [num_leb a b] is [Some (a <= b)] for two numbers,
    compared by value across the integer and double types; NaN is only
    comparable with NaN. *)
Definition num_leb (a b : value) : option bool :=
  match a, b with
  | VInt x, VInt y => Some (x <=? y)
  | VFloat x, VFloat y =>
      Some (if is_nan x || is_nan y then is_nan x && is_nan y
            else PrimFloat.leb x y)
  | VInt x, VFloat y =>
      Some (if is_nan y then false else not_gt (compare_Z_float x y))
  | VFloat x, VInt y =>
      Some (if is_nan x then false else not_gt (CompOpp (compare_Z_float y x)))
  | _, _ => None
  end.

Definition num_eqb (a b : value) : option bool :=
  match num_leb a b, num_leb b a with
  | Some x, Some y => Some (x && y)
  | _, _ => None
  end.

(** Equality of stored values: numbers by value, everything else by shape. *)
Fixpoint bson_eqb (a b : value) {struct a} : bool :=
  match a, b with
  | VNone, VNone => true
  | VBool x, VBool y => Bool.eqb x y
  | VStr x, VStr y => String.eqb x y
  | VOid x, VOid y => N.eqb x y
  | VInt _, _ | VFloat _, _ =>
      match num_eqb a b with
      | Some r => r
      | None => false
      end
  | VList l1, VList l2 =>
      (fix go (l1 l2 : list value) {struct l1} : bool :=
         match l1, l2 with
         | [], [] => true
         | x :: l1', y :: l2' => bson_eqb x y && go l1' l2'
         | _, _ => false
         end) l1 l2
  | VDict d1, VDict d2 =>
      (fix go (d1 d2 : list (string * value)) {struct d1} : bool :=
         match d1, d2 with
         | [], [] => true
         | (k1, x) :: d1', (k2, y) :: d2' =>
             String.eqb k1 k2 && bson_eqb x y && go d1' d2'
         | _, _ => false
         end) d1 d2
  | _, _ => false
  end.

(** The values a condition on a field is tested against: the field's value
    and, when that is an array, each of its elements.  A missing field offers
    none. *)
Definition candidates (fv : option value) : list value :=
  match fv with
  | None => []
  | Some (VList l) => VList l :: l
  | Some v => [v]
  end.

Definition options_of (ops : dict) : option string :=
  match get "$options" ops with
  | None => Some ""
  | Some (VStr o) => Some o
  | Some _ => None
  end.

Section Matching.
Context {E : Pcre}.

(** Modelled from the spec: how the store behind [get_documents] (not among
    the sources) reads the query operators the listing endpoint emits
    (section 4.1).  [$lte] and [$gte] hold of numbers only, so that "records
    lacking a filtered field never match that filter"; [$regex] searches
    string values; [$in] is "exact membership". *)
Definition eval_op (ops : dict) (fv : option value) (op : string) (arg : value)
  : bool :=
  if String.eqb op "$lte" then
    existsb (fun v => match num_leb v arg with Some b => b | None => false end)
            (candidates fv)
  else if String.eqb op "$gte" then
    existsb (fun v => match num_leb arg v with Some b => b | None => false end)
            (candidates fv)
  else if String.eqb op "$regex" then
    match arg, options_of ops with
    | VStr p, Some o =>
        existsb (fun v => match v with
                          | VStr s => regex_search p o s
                          | _ => false
                          end)
                (candidates fv)
    | _, _ => false
    end
  else if String.eqb op "$in" then
    match arg with
    | VList xs =>
        existsb (fun v => existsb (bson_eqb v) xs)
                (match fv with None => [VNone] | _ => candidates fv end)
    | _ => false
    end
  else true.

(** A condition [{op: arg, ...}] on one field: every operator must hold. *)
Definition eval_field (k : string) (cond : value) (doc : dict) : bool :=
  match cond with
  | VDict ops =>
      forallb (fun oa => eval_op ops (get k doc) (fst oa) (snd oa)) ops
  | _ => false
  end.

(** Modelled from the spec: how the store behind [get_documents] (not among
    the sources) reads a filter: a dict whose entries all have to hold
    ("implicit AND between fields"); the entry [$or] holds when one of its
    alternatives does ("OR within the text/tag search"); the empty filter
    "matches all records". *)
Fixpoint matches (q : value) (doc : dict) {struct q} : bool :=
  match q with
  | VDict entries =>
      (fix all (es : list (string * value)) : bool :=
         match es with
         | [] => true
         | (k, v) :: es' =>
             (if String.eqb k "$or" then
                match v with
                | VList alts =>
                    (fix any (l : list value) : bool :=
                       match l with
                       | [] => false
                       | a :: l' => matches a doc || any l'
                       end) alts
                | _ => false
                end
              else eval_field k v doc)
             && all es'
         end) entries
  | _ => false
  end.

(** Which queries the model covers.  Operators other than the four above,
    equality conditions and dotted paths are [Beyond]; a pattern that does
    not compile is refused by the store. *)
Definition check_op (ops : dict) (op : string) (arg : value) : outcome unit :=
  if String.eqb op "$lte" || String.eqb op "$gte" then
    if is_number arg then Ok tt else Beyond
  else if String.eqb op "$regex" then
    match arg, options_of ops with
    | VStr p, Some o =>
        if regex_valid p o then Ok tt
        else Raise (Exception "Regular expression is invalid")
    | _, _ => Beyond
    end
  else if String.eqb op "$options" then
    match get "$regex" ops with
    | Some _ => Ok tt
    | None => Beyond
    end
  else if String.eqb op "$in" then
    match arg with
    | VList _ => Ok tt
    | _ => Beyond
    end
  else Beyond.

Fixpoint check_all {A} (f : A -> outcome unit) (l : list A) : outcome unit :=
  match l with
  | [] => Ok tt
  | a :: l' => obind (f a) (fun _ => check_all f l')
  end.

Definition check_field (k : string) (cond : value) : outcome unit :=
  if contains "." k then Beyond
  else match cond with
       | VDict [] => Beyond
       | VDict ops => check_all (fun oa => check_op ops (fst oa) (snd oa)) ops
       | _ => Beyond
       end.

Fixpoint check_query (q : value) {struct q} : outcome unit :=
  match q with
  | VDict entries =>
      (fix all (es : list (string * value)) : outcome unit :=
         match es with
         | [] => Ok tt
         | (k, v) :: es' =>
             obind
               (if String.eqb k "$or" then
                  match v with
                  | VList [] => Beyond
                  | VList alts =>
                      (fix each (l : list value) : outcome unit :=
                         match l with
                         | [] => Ok tt
                         | a :: l' => obind (check_query a) (fun _ => each l')
                         end) alts
                  | _ => Beyond
                  end
                else if String.prefix "$" k then Beyond
                else check_field k v)
               (fun _ => all es')
         end) entries
  | _ => Beyond
  end.

End Matching.

(** *** The database handle *)

(** Modelled from the spec: how the store behind [database.py] may fail.  A
    store call "either returns or raises": an unreachable server raises on
    every call; and as "a failure partway through a seed leaves a
    non-idempotent partial set" (section 7), a store may serve reads and a
    number of further writes and raise on the writes after those. *)
Inductive failure : Type :=
| Unreachable (msg : string)
| WritesFailAfter (n : nat) (msg : string).

(** Modelled from the spec: the object the global [db] of [database.py]
    holds.  "The document store exclusively owns persisted state": the
    collections, by name, each with its documents in insertion order.
    [fault] is the failure the store is heading for, [None] for a store that
    serves every call.  Identifiers are "store-assigned" and "unique": a
    counter. *)
Record Database : Type := {
  db_name : string;
  fault : option failure;
  collections : list (string * list dict);
  next_id : ObjectId
}.

Fixpoint documents (coll : string) (cs : list (string * list dict)) : list dict :=
  match cs with
  | [] => []
  | (c, docs) :: cs' => if String.eqb coll c then docs else documents coll cs'
  end.

Fixpoint append_document (coll : string) (doc : dict)
  (cs : list (string * list dict)) : list (string * list dict) :=
  match cs with
  | [] => [(coll, [doc])]
  | (c, docs) :: cs' =>
      if String.eqb coll c then (c, docs ++ [doc])%list :: cs'
      else (c, docs) :: append_document coll doc cs'
  end.

(** A call that reads: it raises when the server is unreachable. *)
Definition call {A} (f : Database -> outcome A * Database) : M Database A :=
  fun D =>
    match fault D with
    | Some (Unreachable msg) => (Raise (Exception msg), D)
    | _ => f D
    end.

Definition with_fault (ft : option failure) (D : Database) : Database :=
  {| db_name := db_name D;
     fault := ft;
     collections := collections D;
     next_id := next_id D |}.

(** A call that writes: it raises when the server is unreachable or has
    stopped taking writes, and uses up one of the writes that are left. *)
Definition write_call {A} (f : Database -> outcome A * Database) : M Database A :=
  fun D =>
    match fault D with
    | None => f D
    | Some (Unreachable msg) => (Raise (Exception msg), D)
    | Some (WritesFailAfter O msg) => (Raise (Exception msg), D)
    | Some (WritesFailAfter (S n) msg) =>
        let (r, D') := f D in (r, with_fault (Some (WritesFailAfter n msg)) D')
    end.

Section Calls.
Context {E : Pcre}.

(** Modelled from the spec: [db[coll].find(q)], the documents of the
    collection that the filter matches, in stored order ("whatever the store
    returns"). *)
Definition find (coll : string) (q : dict) : M Database (list dict) :=
  call (fun D =>
    (obind (check_query (VDict q)) (fun _ =>
       Ok (filter (matches (VDict q)) (documents coll (collections D)))), D)).

(** [db[coll].count_documents(q)] *)
Definition count_documents (coll : string) (q : dict) : M Database Z :=
  docs <- find coll q ;; ret (Z.of_nat (List.length docs)).

End Calls.

(** The document as stored: under the identifier [i]. *)
Definition stamp (i : ObjectId) (doc : dict) : dict :=
  ("_id", VOid i) :: remove "_id" doc.

Definition store_document (coll : string) (doc : dict) (D : Database) : Database :=
  {| db_name := db_name D;
     fault := fault D;
     collections := append_document coll (stamp (next_id D) doc) (collections D);
     next_id := N.succ (next_id D) |}.

(** Modelled from the spec: [db[coll].insert_one(doc)].  "Each stored offer
    receives an opaque, store-assigned unique identifier at insertion time":
    the document is stored under a fresh [_id] (the service never supplies
    one of its own). *)
Definition insert_one (coll : string) (doc : dict) : M Database ObjectId :=
  write_call (fun D => (Ok (next_id D), store_document coll doc D)).

(** The documents [l] as stored one after the other from identifier [i] on. *)
Fixpoint stamped_from (i : ObjectId) (l : list dict) : list dict :=
  match l with
  | [] => []
  | doc :: l' => stamp i doc :: stamped_from (N.succ i) l'
  end.

(** [db.list_collection_names()] *)
Definition list_collection_names : M Database (list string) :=
  call (fun D => (Ok (map fst (collections D)), D)).

End Mongo.
Import Mongo.

(** ** Process state: the global [db] of [database.py] and [os.environ] *)

Record World : Type := {
  db : option Database;
  environ : dict
}.

(** Runs a call on the handle the global [db] holds. *)
Definition on_db {A} (m : M Database A) : M World A :=
  fun w =>
    match db w with
    | Some D =>
        let (r, D') := m D in (r, {| db := Some D'; environ := environ w |})
    | None => (Raise (Exception "Database not available"), w)
    end.

(** [os.getenv(k)] as tested by [if]: set and not empty. *)
Definition getenv_truthy (k : string) (w : World) : bool :=
  match get k (environ w) with
  | Some (VStr s) => negb (String.eqb s "")
  | _ => false
  end.

(** What [create_document] is handed: a model instance or a plain dict. *)
Inductive document_data : Type :=
| OfModel (o : Offer)
| OfDict (d : dict).

Definition as_dict (data : document_data) : dict :=
  match data with
  | OfModel o => model_dump o
  | OfDict d => d
  end.

(** Modelled from the spec: [create_document] of [database.py], the store
    gateway's "create" function: it "inserts it into the [offer] collection"
    and "returns the newly assigned identifier as a string". *)
Definition create_document (collection_name : string) (data : document_data)
  : M World string :=
  i <- on_db (insert_one collection_name (as_dict data)) ;;
  ret (str_of_oid i).

(** Modelled from the spec: [get_documents] of [database.py], the store
    gateway's "query" function: the filter is "passed unmodified to the store
    gateway", which returns the records of the collection that match it. *)
Definition get_documents {E : Pcre} (collection_name : string)
  (filter_dict : dict) : M World (list dict) :=
  on_db (find collection_name filter_dict).

(** ** [main.py] *)

(** [str(e)] *)
Definition str_exn {P : Pydantic} (e : exn) : string :=
  match e with
  | HTTPException status_code detail => str_of_Z status_code ++ ": " ++ detail
  | ValidationError title errs => error_text title errs
  | KeyError key => "'" ++ key ++ "'"
  | Exception msg => msg
  end.

(** [str(v)] for the values an [_id] takes; other values are [Beyond]. *)
Definition str_value (v : value) : outcome string :=
  match v with
  | VOid i => Ok (str_of_oid i)
  | VStr s => Ok s
  | VInt z => Ok (str_of_Z z)
  | _ => Beyond
  end.

Fixpoint for_each {S A B} (f : B -> A -> M S B) (l : list A) (b : B) : M S B :=
  match l with
  | [] => ret b
  | a :: l' => b' <- f b a ;; for_each f l' b'
  end.

(** [class OfferCreate(Offer): pass] *)
Definition OfferCreate : Type := Offer.

(** [class OfferPublic(Offer): id: Optional[str] = None] *)
Record OfferPublic : Type := {
  offer : Offer;
  id : option string
}.

Definition OfferPublic_validate {P : Pydantic} (d : dict) : validated OfferPublic :=
  inr Build_OfferPublic <*> Offer_validate d <*> optional "id" str_field d.

Definition read_root : dict := [("message", VStr "MFO Offers API running")].

(** The filter built by lines 44-63 of [list_offers].  [if q:] passes for a
    [q] that is neither [None] nor empty.  A step that would raise
    ([d[k].update] on a missing or non-dict entry) yields [Raise]. *)
Definition update_entry (k : string) (e : dict) (d : dict) : outcome dict :=
  match update_at k e d with
  | Some d' => Ok d'
  | None => Raise (KeyError k)
  end.

Definition build_filter (q : option string) (max_apr : option float)
  (min_amount max_amount : option Z) (min_rating : option float)
  : outcome dict :=
  let filter_dict : dict := [] in
  (* Range filters *)
  let filter_dict :=
    match max_apr with
    | Some v => setitem "apr" (VDict [("$lte", VFloat v)]) filter_dict
    | None => filter_dict
    end in
  obind
    match min_amount with
    | Some v =>
        update_entry "max_amount" [("$gte", VInt v)]
                     (setdefault "max_amount" (VDict []) filter_dict)
    | None => Ok filter_dict
    end (fun filter_dict =>
  obind
    match max_amount with
    | Some v =>
        update_entry "min_amount" [("$lte", VInt v)]
                     (setdefault "min_amount" (VDict []) filter_dict)
    | None => Ok filter_dict
    end (fun filter_dict =>
  let filter_dict :=
    match min_rating with
    | Some v => setitem "rating" (VDict [("$gte", VFloat v)]) filter_dict
    | None => filter_dict
    end in
  (* Text/tag search *)
  let filter_dict :=
    match q with
    | Some s =>
        if String.eqb s "" then filter_dict
        else
          setitem "$or"
            (VList [VDict [("name", VDict [("$regex", VStr s);
                                           ("$options", VStr "i")])];
                    VDict [("tags", VDict [("$in", VList [VStr s])])]])
            filter_dict
    | None => filter_dict
    end in
  Ok filter_dict)).

(** The sample offers of [seed_offers]. *)
Definition sample : list dict :=
  [ [("name", VStr "Быстрые Деньги");
     ("apr", VFloat 29.9%float);
     ("min_amount", VInt 1000);
     ("max_amount", VInt 50000);
     ("term_min_days", VInt 7);
     ("term_max_days", VInt 30);
     ("approval_rate", VFloat 85.0%float);
     ("rating", VFloat 4.6%float);
     ("description", VStr "Мгновенное одобрение и выдача на карту за 5 минут.");
     ("link", VStr "https://example.com/fast");
     ("tags", VList [VStr "быстро"; VStr "онлайн"; VStr "на карту"])];
    [("name", VStr "Надёжный Займ");
     ("apr", VFloat 24.5%float);
     ("min_amount", VInt 3000);
     ("max_amount", VInt 70000);
     ("term_min_days", VInt 10);
     ("term_max_days", VInt 60);
     ("approval_rate", VFloat 78.0%float);
     ("rating", VFloat 4.4%float);
     ("description", VStr "Без справок и поручителей, прозрачные условия.");
     ("link", VStr "https://example.com/reliable");
     ("tags", VList [VStr "без справок"; VStr "прозрачно"])];
    [("name", VStr "Займер");
     ("apr", VFloat 19.9%float);
     ("min_amount", VInt 5000);
     ("max_amount", VInt 100000);
     ("term_min_days", VInt 15);
     ("term_max_days", VInt 90);
     ("approval_rate", VFloat 70.0%float);
     ("rating", VFloat 4.8%float);
     ("description", VStr "Лучшие ставки для постоянных клиентов.");
     ("link", VStr "https://example.com/zaimer");
     ("tags", VList [VStr "низкая ставка"; VStr "лояльность"])];
    [("name", VStr "РубльGo");
     ("apr", VFloat 34.9%float);
     ("min_amount", VInt 1000);
     ("max_amount", VInt 30000);
     ("term_min_days", VInt 7);
     ("term_max_days", VInt 45);
     ("approval_rate", VFloat 90.0%float);
     ("rating", VFloat 4.2%float);
     ("description", VStr "Высокий процент одобрения, первый займ под 0%.");
     ("link", VStr "https://example.com/rublgo");
     ("tags", VList [VStr "0%"; VStr "высокое одобрение"])] ].

(** The status object [test_database] starts from. *)
Definition initial_response : dict :=
  [("backend", VStr "✅ Running");
   ("database", VStr "❌ Not Available");
   ("database_url", VNone);
   ("database_name", VNone);
   ("connection_status", VStr "Not Connected");
   ("collections", VList [])].

(** [test_database] mutates its local [response] while it runs; its state
    is the pair of that dict and the process state. *)
Definition Frame : Type := (dict * World)%type.

Definition set_response (k : string) (v : value) : M Frame unit :=
  modify (fun fr => (setitem k v (fst fr), snd fr)).

Definition in_world {A} (m : M World A) : M Frame A :=
  fun fr => let (r, w') := m (snd fr) in (r, (fst fr, w')).

Section Handlers.
Context {P : Pydantic} {E : Pcre}.

(** The loop body of [list_offers]: [d["id"] = str(d.pop("_id"))], then
    [OfferPublic] built from [d]. *)
Definition public_of_document (d : dict) : outcome OfferPublic :=
  match pop "_id" d with
  | None => Raise (KeyError "_id")
  | Some (i, d) =>
      obind (str_value i) (fun s =>
        let d := setitem "id" (VStr s) d in
        match OfferPublic_validate d with
        | inr o => Ok o
        | inl errs => Raise (ValidationError "OfferPublic" errs)
        end)
  end.

Definition list_offers (q : option string) (max_apr : option float)
  (min_amount max_amount : option Z) (min_rating : option float)
  : M World (list OfferPublic) :=
  handle <- gets db ;;
  match handle with
  | None => raise (HTTPException 500 "Database not configured")
  | Some _ =>
      filter_dict <- lift (build_filter q max_apr min_amount max_amount min_rating) ;;
      docs <- get_documents "offer" filter_dict ;;
      (* Convert ObjectId to string and map to public model *)
      mapM (fun d => lift (public_of_document d)) docs
  end.

Definition create_offer (payload : OfferCreate) : M World dict :=
  handle <- gets db ;;
  match handle with
  | None => raise (HTTPException 500 "Database not configured")
  | Some _ =>
      inserted_id <- create_document "offer" (OfModel payload) ;;
      ret [("id", VStr inserted_id)]
  end.

Definition seed_offers : M World dict :=
  handle <- gets db ;;
  match handle with
  | None => raise (HTTPException 500 "Database not configured")
  | Some _ =>
      try_except
        (count <- on_db (count_documents "offer" []) ;;
         if 0 <? count then
           ret [("status", VStr "ok"); ("inserted", VInt 0);
                ("message", VStr "Offers already exist")]
         else
           inserted <- for_each
                         (fun inserted s =>
                            create_document "offer" (OfDict s) ;;
                            ret (inserted + 1))
                         sample 0 ;;
           ret [("status", VStr "ok"); ("inserted", VInt inserted)])
        (fun e => raise (HTTPException 500 (str_exn e)))
  end.

Definition test_database_body : M Frame unit :=
  try_except
    (handle <- gets (fun fr => db (snd fr)) ;;
     match handle with
     | Some D =>
         set_response "database" (VStr "✅ Available") ;;
         set_response "database_url" (VStr "✅ Configured") ;;
         (* a handle always has a [name] attribute *)
         set_response "database_name" (VStr (db_name D)) ;;
         set_response "connection_status" (VStr "Connected") ;;
         try_except
           (collections <- in_world (on_db list_collection_names) ;;
            set_response "collections" (VList (map VStr (firstn 10 collections))) ;;
            set_response "database" (VStr "✅ Connected & Working"))
           (fun e =>
              set_response "database"
                (VStr ("⚠️  Connected but Error: " ++ slice_to 50 (str_exn e))))
     | None =>
         set_response "database" (VStr "⚠️  Available but not initialized")
     end)
    (fun e =>
       set_response "database" (VStr ("❌ Error: " ++ slice_to 50 (str_exn e)))) ;;
  url_set <- gets (fun fr => getenv_truthy "DATABASE_URL" (snd fr)) ;;
  set_response "database_url" (VStr (if url_set then "✅ Set" else "❌ Not Set")) ;;
  name_set <- gets (fun fr => getenv_truthy "DATABASE_NAME" (snd fr)) ;;
  set_response "database_name" (VStr (if name_set then "✅ Set" else "❌ Not Set")).

Definition test_database : M World dict :=
  fun w =>
    match test_database_body (initial_response, w) with
    | (Ok _, (response, w')) => (Ok response, w')
    | (Raise e, (_, w')) => (Raise e, w')
    | (Beyond, (_, w')) => (Beyond, w')
    end.

End Handlers.

(** Whether the filter built from the given parameters selects [doc]. *)
Definition selects {E : Pcre} (q : option string) (max_apr : option float)
  (min_amount max_amount : option Z) (min_rating : option float) (doc : dict)
  : bool :=
  match build_filter q max_apr min_amount max_amount min_rating with
  | Ok filter_dict => matches (VDict filter_dict) doc
  | _ => false
  end.

(** The two alternatives of the text clause for a search string [s]. *)
Definition name_clause {E : Pcre} (s : string) (doc : dict) : bool :=
  eval_field "name" (VDict [("$regex", VStr s); ("$options", VStr "i")]) doc.

Definition tags_clause {E : Pcre} (s : string) (doc : dict) : bool :=
  eval_field "tags" (VDict [("$in", VList [VStr s])]) doc.

(** The listing as a function of the stored documents: the public form of
    those the filter selects. *)
Definition publish {P : Pydantic} (docs : list dict) : outcome (list OfferPublic) :=
  collect public_of_document docs.

(** ** The FastAPI layer

    Query parameters and request bodies are validated before a handler runs;
    an [HTTPException] becomes a response with its status, any other
    exception a 500.  A run that leaves the modelled fragment has no
    response ([None]). *)

Inductive detail : Type :=
| Message (s : string)
| FieldErrors (errs : errors).

Inductive http_response (A : Type) : Type :=
| Response (status_code : Z) (body : A)
| ErrorResponse (status_code : Z) (d : detail).

Arguments Response {A} status_code body.
Arguments ErrorResponse {A} status_code d.

Definition serve {A} (status_code : Z) (handler : M World A)
  : World -> option (http_response A) * World :=
  fun w =>
    match handler w with
    | (Ok a, w') => (Some (Response status_code a), w')
    | (Raise (HTTPException s d), w') => (Some (ErrorResponse s (Message d)), w')
    | (Raise _, w') =>
        (Some (ErrorResponse 500 (Message "Internal Server Error")), w')
    | (Beyond, w') => (None, w')
    end.

Definition unprocessable {A} (errs : errors) : http_response A :=
  ErrorResponse 422 (FieldErrors errs).

(** Whether a value can be written as JSON: it holds no NaN and no infinity. *)
Fixpoint json_compliant (v : value) {struct v} : bool :=
  match v with
  | VFloat f => is_finite f
  | VList l =>
      (fix all (l : list value) : bool :=
         match l with
         | [] => true
         | x :: l' => json_compliant x && all l'
         end) l
  | VDict d =>
      (fix all (d : list (string * value)) : bool :=
         match d with
         | [] => true
         | (_, x) :: d' => json_compliant x && all d'
         end) d
  | _ => true
  end.

(** The answer to a request that failed validation.  The detail of the 422
    repeats, for each error, the input it is about, and the response is
    written as JSON: when an input cannot be, writing it raises and the
    answer is the 500 of an unhandled exception. *)
Definition validation_response {A} (inputs : list value) (errs : errors)
  : http_response A :=
  if forallb json_compliant inputs then unprocessable errs
  else ErrorResponse 500 (Message "Internal Server Error").

(** The input an error of [Offer] validation is about: the whole body for a
    missing field, the items that are no strings for a [tags] list, and the
    value of the field otherwise. *)
Definition Offer_error_input {P : Pydantic} (d : dict) (ke : string * field_error)
  : list value :=
  match snd ke with
  | Missing => [VDict d]
  | _ =>
      match get (fst ke) d with
      | Some (VList l) =>
          if String.eqb (fst ke) "tags" then
            filter (fun v => match str_validator v with
                             | Some _ => false
                             | None => true
                             end) l
          else [VList l]
      | Some v => [v]
      | None => []
      end
  end.

Definition Offer_error_inputs {P : Pydantic} (d : dict) (errs : errors)
  : list value :=
  flat_map (Offer_error_input d) errs.

Definition param {A} (k : string) (check : A -> field_error + A) (v : option A)
  : errors :=
  match v with
  | Some a => match check a with
              | inl e => [(k, e)]
              | inr _ => []
              end
  | None => []
  end.

(** The [Query(None, ge=..., le=...)] declarations of [list_offers]. *)
Definition query_errors (max_apr : option float) (min_amount max_amount : option Z)
  (min_rating : option float) : errors :=
  (param "max_apr" (check_float (Some 0%float) None) max_apr
   ++ param "min_amount" (check_int (Some 0) None) min_amount
   ++ param "max_amount" (check_int (Some 0) None) max_amount
   ++ param "min_rating" (check_float (Some 0%float) (Some 5%float)) min_rating)%list.

Section Routes.
Context {P : Pydantic} {E : Pcre}.

(** [GET /api/offers] *)
Definition get_api_offers (q : option string) (max_apr : option float)
  (min_amount max_amount : option Z) (min_rating : option float)
  : World -> option (http_response (list OfferPublic)) * World :=
  fun w =>
    match query_errors max_apr min_amount max_amount min_rating with
    | [] => serve 200 (list_offers q max_apr min_amount max_amount min_rating) w
    | errs => (Some (unprocessable errs), w)
    end.

(** [POST /api/offers], on the parsed JSON body. *)
Definition post_api_offers (body : value)
  : World -> option (http_response dict) * World :=
  fun w =>
    match body with
    | VDict d =>
        match Offer_validate d with
        | inr payload => serve 201 (create_offer payload) w
        | inl errs =>
            (Some (validation_response (Offer_error_inputs d errs) errs), w)
        end
    | _ => (Some (validation_response [body] [("body", WrongType)]), w)
    end.

(** [POST /api/offers/seed] *)
Definition post_api_offers_seed : World -> option (http_response dict) * World :=
  serve 200 seed_offers.

(** [GET /test] *)
Definition get_test : World -> option (http_response dict) * World :=
  serve 200 test_database.

End Routes.

(** ** Reference instances of the two interfaces

    They make the handlers run on concrete requests.  [exact_types] accepts a
    value only at its own type and a URL only with an [http] or [https]
    scheme; [AlternationEngine] reads a pattern as alternatives separated by
    [|], each one literal text, and folds the case of ASCII letters. *)

Definition exact_int (v : value) : option Z :=
  match v with
  | VInt z => Some z
  | _ => None
  end.

Definition exact_float (v : value) : option float :=
  match v with
  | VFloat f => Some f
  | _ => None
  end.

Definition exact_str (v : value) : option string :=
  match v with
  | VStr s => Some s
  | _ => None
  end.

Definition http_url (v : value) : option string :=
  match v with
  | VStr s =>
      if String.prefix "http://" s || String.prefix "https://" s
      then Some s else None
  | _ => None
  end.

Fixpoint error_names (errs : errors) : string :=
  match errs with
  | [] => ""
  | (k, _) :: errs' => k ++ " " ++ error_names errs'
  end.

#[export] Instance exact_types : Pydantic := {|
  int_validator := exact_int;
  float_validator := exact_float;
  str_validator := exact_str;
  url_validator := http_url;
  error_text := fun title errs => title ++ ": " ++ error_names errs;
  int_validator_int := fun z => eq_refl;
  float_validator_float := fun f => eq_refl;
  str_validator_str := fun s => eq_refl
|}.

Definition lower (c : ascii) : ascii :=
  let n := N_of_ascii c in
  if (65 <=? n)%N && (n <=? 90)%N then ascii_of_N (n + 32) else c.

Fixpoint ascii_casefold (s : string) : string :=
  match s with
  | EmptyString => EmptyString
  | String c s' => String (lower c) (ascii_casefold s')
  end.

Fixpoint alternatives (p : string) : list string :=
  match p with
  | EmptyString => [EmptyString]
  | String c p' =>
      if Ascii.eqb c "|" then EmptyString :: alternatives p'
      else match alternatives p' with
           | b :: bs => String c b :: bs
           | [] => [String c EmptyString]
           end
  end.

Definition alternation_valid (p o : string) : bool :=
  forallb literal (alternatives p) && (String.eqb o "i" || String.eqb o "").

Definition alternation_search (p o s : string) : bool :=
  let fold := if String.eqb o "i" then ascii_casefold else (fun x => x) in
  existsb (fun b => contains (fold b) (fold s)) (alternatives p).

(** The reference engine satisfies the interface. *)

Lemma literal_cons (c : ascii) (p : string) :
  literal (String c p) = negb (is_meta c) && literal p.
Proof. reflexivity. Qed.

Lemma bar_is_meta (c : ascii) : Ascii.eqb c "|" = true -> is_meta c = true.
Proof.
  intros H. apply Ascii.eqb_eq in H. subst c. reflexivity.
Qed.

Lemma alternatives_literal (p : string) :
  literal p = true -> alternatives p = [p].
Proof.
  induction p as [|c p IH]; intros H; [reflexivity|].
  rewrite literal_cons in H. apply andb_true_iff in H as [Hc Hp].
  simpl. destruct (Ascii.eqb c "|") eqn:Hbar.
  - apply bar_is_meta in Hbar. rewrite Hbar in Hc. discriminate.
  - rewrite (IH Hp). reflexivity.
Qed.

Lemma alternation_valid_literal (p : string) :
  literal p = true -> alternation_valid p "i" = true.
Proof.
  intros H. unfold alternation_valid.
  rewrite (alternatives_literal p H). simpl. rewrite H. reflexivity.
Qed.

Lemma alternation_search_literal (p s : string) :
  literal p = true ->
  alternation_search p "i" s = contains (ascii_casefold p) (ascii_casefold s).
Proof.
  intros H. unfold alternation_search.
  rewrite (alternatives_literal p H). simpl. apply orb_false_r.
Qed.

#[export] Instance AlternationEngine : Pcre := {|
  regex_valid := alternation_valid;
  regex_search := alternation_search;
  casefold := ascii_casefold;
  regex_valid_literal := alternation_valid_literal;
  regex_search_literal := alternation_search_literal
|}.

(** ** Vocabulary of the statements *)

(** What [seed_offers] answers when offers are already there. *)
Definition already_seeded : dict :=
  [("status", VStr "ok"); ("inserted", VInt 0);
   ("message", VStr "Offers already exist")].

(** A configured, reachable database without any collection. *)
Definition empty_database : Database :=
  {| db_name := "mfo"; fault := None; collections := []; next_id := 0%N |}.

Definition fresh_world : World :=
  {| db := Some empty_database; environ := [] |}.





(** A payload whose ranges are both inverted. *)
Definition inverted_payload : dict :=
  [("name", VStr "Inverted");
   ("apr", VFloat 10%float);
   ("min_amount", VInt 5000);
   ("max_amount", VInt 100);
   ("term_min_days", VInt 30);
   ("term_max_days", VInt 7)].

(** Every field of [o] is within its own bounds. *)
Definition within (lo hi : float) (o : option float) : bool :=
  match o with
  | Some f => PrimFloat.leb lo f && PrimFloat.leb f hi
  | None => true
  end.

Definition constraints_ok (o : Offer) : bool :=
  PrimFloat.leb 0%float (apr o)
  && (0 <=? min_amount o) && (0 <=? max_amount o)
  && (1 <=? term_min_days o) && (1 <=? term_max_days o)
  && within 0%float 100%float (approval_rate o)
  && within 0%float 5%float (rating o).

(** The reading of the text clause as plain text: [q] occurs in the name
    whatever the case, or is one of the tags. *)
Definition text_clause_is_substring_or_tag {E : Pcre}
  (q name : string) (tags : list string) : Prop :=
  selects (Some q) None None None None
          [("name", VStr name); ("tags", VList (map VStr tags))] = true
  <-> contains (casefold q) (casefold name) = true \/ In q tags.

(** What [test_database] reports under [database] for each state of the
    global handle. *)
Definition database_status (w : World) : string :=
  match db w with
  | None => "⚠️  Available but not initialized"
  | Some D =>
      match fault D with
      | Some (Unreachable msg) => "⚠️  Connected but Error: " ++ slice_to 50 msg
      | _ => "✅ Connected & Working"
      end
  end.

(** The two samples the example request selects, and the other two, as
    models: [sample] is their dump. *)
Definition offer_fast : Offer :=
  {| name := "Быстрые Деньги"; apr := 29.9%float;
     min_amount := 1000; max_amount := 50000;
     term_min_days := 7; term_max_days := 30;
     approval_rate := Some 85.0%float; rating := Some 4.6%float;
     description := Some "Мгновенное одобрение и выдача на карту за 5 минут.";
     link := Some "https://example.com/fast";
     tags := ["быстро"; "онлайн"; "на карту"] |}.

Definition offer_reliable : Offer :=
  {| name := "Надёжный Займ"; apr := 24.5%float;
     min_amount := 3000; max_amount := 70000;
     term_min_days := 10; term_max_days := 60;
     approval_rate := Some 78.0%float; rating := Some 4.4%float;
     description := Some "Без справок и поручителей, прозрачные условия.";
     link := Some "https://example.com/reliable";
     tags := ["без справок"; "прозрачно"] |}.

Definition offer_zaimer : Offer :=
  {| name := "Займер"; apr := 19.9%float;
     min_amount := 5000; max_amount := 100000;
     term_min_days := 15; term_max_days := 90;
     approval_rate := Some 70.0%float; rating := Some 4.8%float;
     description := Some "Лучшие ставки для постоянных клиентов.";
     link := Some "https://example.com/zaimer";
     tags := ["низкая ставка"; "лояльность"] |}.

Definition offer_rublgo : Offer :=
  {| name := "РубльGo"; apr := 34.9%float;
     min_amount := 1000; max_amount := 30000;
     term_min_days := 7; term_max_days := 45;
     approval_rate := Some 90.0%float; rating := Some 4.2%float;
     description := Some "Высокий процент одобрения, первый займ под 0%.";
     link := Some "https://example.com/rublgo";
     tags := ["0%"; "высокое одобрение"] |}.

(** The link of a stored model as [HttpUrl] reads it back. *)
Definition reread_link {P : Pydantic} (o : Offer) : option (option string) :=
  match link o with
  | None => Some None
  | Some l => match url_validator (VStr l) with
              | Some u => Some (Some u)
              | None => None
              end
  end.

Definition with_link (o : Offer) (l : option string) : Offer :=
  {| name := name o; apr := apr o;
     min_amount := min_amount o; max_amount := max_amount o;
     term_min_days := term_min_days o; term_max_days := term_max_days o;
     approval_rate := approval_rate o; rating := rating o;
     description := description o; link := l; tags := tags o |}.

(** The forms of a record [(i, o)]: as stored, and as listed. *)
Definition stored_form (r : ObjectId * Offer) : dict :=
  stamp (fst r) (model_dump (snd r)).

Definition public_form (r : ObjectId * Offer) : OfferPublic :=
  {| offer := snd r; id := Some (str_of_oid (fst r)) |}.

(** The URL validator accepts the link of every model of [l]. *)
Definition links_accepted {P : Pydantic} (l : list Offer) : bool :=
  forallb (fun o => match reread_link o with Some _ => true | None => false end) l.

(** The example request of the specification: [max_apr=25&min_rating=4.3]. *)
Definition example_listing {P : Pydantic} {E : Pcre}
  : World -> option (http_response (list OfferPublic)) * World :=
  get_api_offers None (Some 25%float) None None (Some 4.3%float).

(** The fresh database after the four samples were stored. *)
Definition seeded_database : Database :=
  fold_left (fun D s => store_document "offer" s D) sample empty_database.

Definition seeded_world : World :=
  {| db := Some seeded_database; environ := [] |}.


Definition plain_body : dict :=
  [("name", VStr "Plain");
   ("apr", VFloat 10%float);
   ("min_amount", VInt 100);
   ("max_amount", VInt 5000);
   ("term_min_days", VInt 7);
   ("term_max_days", VInt 30)].

Definition body_with_id : dict := ("id", VStr "abc123") :: plain_body.

(** An offer created without a rating, and the seeded database after it was
    stored. *)
Definition unrated_offer : Offer :=
  {| name := "Plain"; apr := 10%float;
     min_amount := 100; max_amount := 5000;
     term_min_days := 7; term_max_days := 30;
     approval_rate := None; rating := None;
     description := None; link := None; tags := [] |}.

Definition unrated_record : dict := stamp 4%N (model_dump unrated_offer).

Definition unrated_database : Database :=
  store_document "offer" (model_dump unrated_offer) seeded_database.

Definition unrated_world : World :=
  {| db := Some unrated_database; environ := [] |}.

(** A record to search by text. *)
Definition searchable_record : dict :=
  [("name", VStr "Fast Money"); ("tags", VList [VStr "online"])].

(** ** Vocabulary of the further statements *)

Definition exact_bool_validator (v : value) : option bool :=
  match v with
  | VBool b => Some b
  | _ => None
  end.

#[export] Instance exact_bool : PydanticBool := {|
  bool_validator := exact_bool_validator;
  bool_validator_bool := fun b => eq_refl
|}.



Definition optional_fields : list string :=
  ["approval_rate"; "rating"; "description"; "link"].

(** The handle is set and the server behind it reachable. *)
Definition reachable (w : World) (D : Database) : Prop :=
  db w = Some D /\ fault D = None.

Definition offers (D : Database) : list dict :=
  documents "offer" (collections D).

(** The unfiltered listing. *)
Definition list_everything {P : Pydantic} {E : Pcre}
  : World -> option (http_response (list OfferPublic)) * World :=
  get_api_offers None None None None None.

Definition created (i : ObjectId) : http_response dict :=
  Response 201 [("id", VStr (str_of_oid i))].

Definition server_error {A} (text : string) : http_response A :=
  ErrorResponse 500 (Message text).

(** A query parameter outside the bounds its [Query] declares. *)
Inductive out_of_range (max_apr : option float) (min_amount max_amount : option Z)
  (min_rating : option float) : string -> Prop :=
| max_apr_negative (v : float) :
    max_apr = Some v -> PrimFloat.leb 0%float v = false ->
    out_of_range max_apr min_amount max_amount min_rating "max_apr"
| min_amount_negative (v : Z) :
    min_amount = Some v -> v < 0 ->
    out_of_range max_apr min_amount max_amount min_rating "min_amount"
| max_amount_negative (v : Z) :
    max_amount = Some v -> v < 0 ->
    out_of_range max_apr min_amount max_amount min_rating "max_amount"
| min_rating_outside (v : float) :
    min_rating = Some v ->
    PrimFloat.leb 0%float v && PrimFloat.leb v 5%float = false ->
    out_of_range max_apr min_amount max_amount min_rating "min_rating".

(** The number of code points of a UTF-8 string. *)
Fixpoint code_points (s : string) : nat :=
  match s with
  | EmptyString => O
  | String c s' =>
      if is_continuation c then code_points s' else S (code_points s')
  end.

(** The keys of the status object. *)
Definition status_keys : list string :=
  ["backend"; "database"; "database_url"; "database_name";
   "connection_status"; "collections"].

Definition set_or_not (b : bool) : string :=
  if b then "✅ Set" else "❌ Not Set".

(** A database whose server is down, and one where no handle was set. *)
Definition failing_database : Database :=
  {| db_name := "mfo"; fault := Some (Unreachable "connection refused");
     collections := []; next_id := 0%N |}.

Definition failing_world : World :=
  {| db := Some failing_database; environ := [] |}.

Definition unconfigured_world : World := {| db := None; environ := [] |}.

(** A stored document that is no offer, and the seeded database holding it. *)
Definition broken_record : dict := stamp 4%N [("name", VInt 7)].

Definition broken_database : Database :=
  store_document "offer" [("name", VInt 7)] seeded_database.

Definition broken_world : World :=
  {| db := Some broken_database; environ := [] |}.

(** ** Vocabulary of the end-to-end statements *)

(** The filter as the specification describes it: one condition per supplied
    range parameter, [max_apr] on [apr], [min_amount] on [max_amount],
    [max_amount] on [min_amount], [min_rating] on [rating], and the [$or]
    clause of a search string that is not empty. *)
Definition condition (field op : string) (bound : option value) : dict :=
  match bound with
  | Some v => [(field, VDict [(op, v)])]
  | None => []
  end.

Definition text_condition (q : option string) : dict :=
  match q with
  | Some s =>
      if String.eqb s "" then []
      else [("$or",
             VList [VDict [("name", VDict [("$regex", VStr s);
                                           ("$options", VStr "i")])];
                    VDict [("tags", VDict [("$in", VList [VStr s])])]])]
  | None => []
  end.

Definition described_filter (q : option string) (max_apr : option float)
  (min_amount max_amount : option Z) (min_rating : option float) : dict :=
  (condition "apr" "$lte" (option_map VFloat max_apr)
   ++ condition "max_amount" "$gte" (option_map VInt min_amount)
   ++ condition "min_amount" "$lte" (option_map VInt max_amount)
   ++ condition "rating" "$gte" (option_map VFloat min_rating)
   ++ text_condition q)%list.

(** Whether [doc] meets the condition of a range parameter: a parameter that
    was not supplied asks nothing. *)
Definition meets {E : Pcre} (field op : string) (bound : option value) (doc : dict)
  : bool :=
  match bound with
  | Some v => eval_field field (VDict [(op, v)]) doc
  | None => true
  end.

Definition meets_text {E : Pcre} (q : option string) (doc : dict) : bool :=
  match q with
  | Some s => if String.eqb s "" then true
              else name_clause s doc || tags_clause s doc
  | None => true
  end.

(** A well-formed record: an offer within the bounds of the schema, with a
    finite [apr] (the one float the bounds leave open above) and a link the
    URL validator reads back unchanged. *)
Definition well_formed_record {P : Pydantic} (r : ObjectId * Offer) : Prop :=
  constraints_ok (snd r) = true
  /\ is_finite (apr (snd r)) = true
  /\ reread_link (snd r) = Some (link (snd r)).






(** The body carries the payload: each declared field holds the value the
    payload dumps for it, or is left out where the dump is the field's
    default (a null, or the empty list of [tags]). *)
Definition carries (d : dict) (payload : Offer) : Prop :=
  forall k, In k Offer_fields ->
    exists v, get k (model_dump payload) = Some v
              /\ (get k d = Some v
                  \/ (get k d = None /\ (v = VNone \/ v = VList []))).



(** An empty database whose server takes two more writes and then fails. *)
Definition flaky_database : Database :=
  {| db_name := "mfo"; fault := Some (WritesFailAfter 2 "write failed");
     collections := []; next_id := 0%N |}.

Definition flaky_world : World :=
  {| db := Some flaky_database; environ := [] |}.

(** * Properties *)

(** ** Dicts *)

Lemma get_setitem_same (k : string) (v : value) (d : dict) :
  get k (setitem k v d) = Some v.
Proof.
  induction d as [|[k' v'] d IH]; simpl.
  - now rewrite String.eqb_refl.
  - destruct (String.eqb k k') eqn:Hk; simpl.
    + now rewrite String.eqb_refl.
    + now rewrite Hk.
Qed.

Lemma get_setitem_other (k k' : string) (v : value) (d : dict) :
  k <> k' -> get k (setitem k' v d) = get k d.
Proof.
  intros Hne. induction d as [|[k0 v0] d IH]; simpl.
  - apply String.eqb_neq in Hne. now rewrite Hne.
  - destruct (String.eqb k' k0) eqn:Hk0; simpl.
    + apply String.eqb_eq in Hk0. subst k0.
      apply String.eqb_neq in Hne. now rewrite Hne.
    + destruct (String.eqb k k0); auto.
Qed.

(** ** Running the monad *)

Lemma mapM_lift_collect {S A B} (f : A -> outcome B) (l : list A) (s : S) :
  mapM (fun a => lift (f a)) l s = (collect f l, s).
Proof.
  induction l as [|a l IH]; [reflexivity|].
  simpl. unfold bind, lift at 1.
  destruct (f a) as [b| |]; simpl; try reflexivity.
  rewrite IH. destruct (collect f l); reflexivity.
Qed.

(** ** The store *)

Lemma documents_append_same (coll : string) (doc : dict)
  (cs : list (string * list dict)) :
  documents coll (append_document coll doc cs) = (documents coll cs ++ [doc])%list.
Proof.
  induction cs as [|[c docs] cs IH]; simpl.
  - now rewrite String.eqb_refl.
  - destruct (String.eqb coll c) eqn:Hc; simpl.
    + now rewrite Hc.
    + now rewrite Hc.
Qed.

Lemma find_healthy {E : Pcre} (coll : string) (q : dict) (D : Database) :
  fault D = None ->
  check_query (VDict q) = Ok tt ->
  find coll q D = (Ok (filter (matches (VDict q)) (documents coll (collections D))), D).
Proof.
  intros Hf Hq. unfold find, call. rewrite Hf, Hq. reflexivity.
Qed.

Lemma get_documents_healthy {E : Pcre} (coll : string) (q : dict)
  (D : Database) (env : dict) :
  fault D = None ->
  check_query (VDict q) = Ok tt ->
  get_documents coll q {| db := Some D; environ := env |}
  = (Ok (filter (matches (VDict q)) (documents coll (collections D))),
     {| db := Some D; environ := env |}).
Proof.
  intros Hf Hq. unfold get_documents, on_db. simpl.
  rewrite (find_healthy coll q D Hf Hq). reflexivity.
Qed.

(** A listing on a reachable store is the public form of the documents its
    filter selects, and leaves the state as it was. *)
Lemma list_offers_healthy {P : Pydantic} {E : Pcre}
  (q : option string) (max_apr : option float) (min_amount max_amount : option Z)
  (min_rating : option float) (filter_dict : dict) (D : Database) (env : dict) :
  fault D = None ->
  build_filter q max_apr min_amount max_amount min_rating = Ok filter_dict ->
  check_query (VDict filter_dict) = Ok tt ->
  list_offers q max_apr min_amount max_amount min_rating
              {| db := Some D; environ := env |}
  = (publish (filter (selects q max_apr min_amount max_amount min_rating)
                     (documents "offer" (collections D))),
     {| db := Some D; environ := env |}).
Proof.
  intros Hf Hb Hq. unfold list_offers, bind at 1, gets. simpl.
  unfold bind at 1, lift at 1. rewrite Hb.
  unfold bind at 1. rewrite (get_documents_healthy "offer" filter_dict D env Hf Hq).
  rewrite mapM_lift_collect. unfold publish. do 2 f_equal.
  apply filter_ext. intros r. unfold selects. now rewrite Hb.
Qed.

(** ** The filter builder *)

Lemma build_filter_total (q : option string) (max_apr : option float)
  (min_amount max_amount : option Z) (min_rating : option float) :
  exists filter_dict,
    build_filter q max_apr min_amount max_amount min_rating = Ok filter_dict.
Proof.
  destruct q as [s|]; [destruct (String.eqb s "") eqn:Hs|];
    destruct max_apr, min_amount, max_amount, min_rating;
    unfold build_filter; cbn; rewrite ?Hs; cbn; eexists; reflexivity.
Qed.

(** ** Range filters *)

Lemma selects_min_amount {E : Pcre} (v m : Z) (r : dict) :
  get "max_amount" r = Some (VInt m) ->
  selects None None (Some v) None None r = (v <=? m).
Proof.
  intros Hm. unfold selects. cbn. unfold eval_field. cbn. rewrite Hm. cbn.
  now rewrite orb_false_r, !andb_true_r.
Qed.

Lemma selects_max_amount {E : Pcre} (v m : Z) (r : dict) :
  get "min_amount" r = Some (VInt m) ->
  selects None None None (Some v) None r = (m <=? v).
Proof.
  intros Hm. unfold selects. cbn. unfold eval_field. cbn. rewrite Hm. cbn.
  now rewrite orb_false_r, !andb_true_r.
Qed.

Lemma selects_min_rating_unrated {E : Pcre} (v : float) (r : dict) :
  get "rating" r = None \/ get "rating" r = Some VNone ->
  selects None None None None (Some v) r = false.
Proof.
  intros [Hr|Hr]; unfold selects; cbn; unfold eval_field; cbn; rewrite Hr;
    reflexivity.
Qed.

(** C8. On a reachable store, a listing with only [min_rating = v], whatever
    [v] is, leaves out every stored record whose [rating] is missing or
    null. *)
Theorem min_rating_excludes_unrated {P : Pydantic} {E : Pcre}
  (v : float) (w : World) (D : Database) :
  db w = Some D ->
  fault D = None ->
  exists selected,
    list_offers None None None None (Some v) w = (publish selected, w)
    /\ forall r,
         get "rating" r = None \/ get "rating" r = Some VNone ->
         selects None None None None (Some v) r = false /\ ~ In r selected.
Proof.
  intros Hdb Hf. destruct w as [handle env]. simpl in Hdb. subst handle.
  eexists. split.
  - eapply list_offers_healthy; [exact Hf|reflexivity|reflexivity].
  - intros r Hr. pose proof (selects_min_rating_unrated v r Hr) as Hsel.
    split; [exact Hsel|].
    rewrite filter_In, Hsel. intros [_ Hm]. discriminate.
Qed.

(** ** Writing to the store *)

Lemma documents_store_document (coll : string) (doc : dict) (D : Database) :
  documents coll (collections (store_document coll doc D))
  = (documents coll (collections D) ++ [stamp (next_id D) doc])%list.
Proof. apply documents_append_same. Qed.

Lemma documents_store_all (coll : string) (l : list dict) (D : Database) :
  documents coll
    (collections (fold_left (fun D' s => store_document coll s D') l D))
  = (documents coll (collections D) ++ stamped_from (next_id D) l)%list.
Proof.
  revert D. induction l as [|s l IH]; intros D; simpl.
  - now rewrite app_nil_r.
  - rewrite IH, documents_store_document, <- app_assoc. reflexivity.
Qed.

Lemma fault_store_all (coll : string) (l : list dict) (D : Database) :
  fault (fold_left (fun D' s => store_document coll s D') l D) = fault D.
Proof.
  revert D. induction l as [|s l IH]; intros D; simpl; [reflexivity|].
  now rewrite IH.
Qed.

Lemma create_document_healthy (coll : string) (data : document_data)
  (D : Database) (env : dict) :
  fault D = None ->
  create_document coll data {| db := Some D; environ := env |}
  = (Ok (str_of_oid (next_id D)),
     {| db := Some (store_document coll (as_dict data) D); environ := env |}).
Proof.
  intros Hf. unfold create_document, bind, on_db, insert_one, write_call. simpl.
  rewrite Hf. reflexivity.
Qed.

Lemma seed_loop_healthy (l : list dict) (n : Z) (D : Database) (env : dict) :
  fault D = None ->
  for_each (fun inserted s =>
              create_document "offer" (OfDict s) ;; ret (inserted + 1)) l n
           {| db := Some D; environ := env |}
  = (Ok (n + Z.of_nat (List.length l)),
     {| db := Some (fold_left (fun D' s => store_document "offer" s D') l D);
        environ := env |}).
Proof.
  revert n D. induction l as [|s l IH]; intros n D Hf.
  - simpl. unfold ret. now rewrite Z.add_0_r.
  - cbn [for_each]. unfold bind at 1. unfold bind at 1.
    rewrite (create_document_healthy "offer" (OfDict s) D env Hf).
    unfold ret at 1. rewrite IH by exact Hf.
    cbn [fold_left as_dict List.length]. do 2 f_equal. lia.
Qed.

Lemma count_documents_all {E : Pcre} (coll : string) (D : Database) (env : dict) :
  fault D = None ->
  on_db (count_documents coll []) {| db := Some D; environ := env |}
  = (Ok (Z.of_nat (List.length (documents coll (collections D)))),
     {| db := Some D; environ := env |}).
Proof.
  intros Hf. unfold on_db, count_documents, bind, find, call. simpl.
  rewrite Hf. simpl. unfold ret. do 4 f_equal.
  induction (documents coll (collections D)) as [|d l IH]; simpl; congruence.
Qed.

Lemma seed_offers_nonempty {P : Pydantic} {E : Pcre} (D : Database) (env : dict) :
  fault D = None ->
  documents "offer" (collections D) <> [] ->
  seed_offers {| db := Some D; environ := env |}
  = (Ok already_seeded, {| db := Some D; environ := env |}).
Proof.
  intros Hf Hne. unfold seed_offers, bind at 1, gets. simpl.
  unfold try_except, bind at 1. rewrite (count_documents_all "offer" D env Hf).
  destruct (documents "offer" (collections D)) as [|d l]; [congruence|].
  reflexivity.
Qed.

Lemma seed_offers_empty {P : Pydantic} {E : Pcre} (D : Database) (env : dict) :
  fault D = None ->
  documents "offer" (collections D) = [] ->
  seed_offers {| db := Some D; environ := env |}
  = (Ok [("status", VStr "ok"); ("inserted", VInt 4)],
     {| db := Some (fold_left (fun D' s => store_document "offer" s D') sample D);
        environ := env |}).
Proof.
  intros Hf Hempty. unfold seed_offers.
  set (loop := for_each _ sample 0).
  unfold bind at 1, gets. simpl.
  unfold try_except, bind at 1. rewrite (count_documents_all "offer" D env Hf).
  rewrite Hempty. cbn [List.length Z.of_nat Z.ltb Z.compare].
  unfold bind at 1. subst loop. rewrite (seed_loop_healthy sample 0 D env Hf).
  reflexivity.
Qed.

(** C5. On a reachable store: when the [offer] collection holds a record,
    seeding writes nothing and reports [inserted: 0] with the message
    "Offers already exist"; when it is empty, seeding stores the four samples
    and reports [inserted: 4], and seeding once more writes nothing and
    reports [inserted: 0]. *)
Theorem seed_is_idempotent {P : Pydantic} {E : Pcre} (w : World) (D : Database) :
  db w = Some D ->
  fault D = None ->
  (documents "offer" (collections D) <> [] ->
   seed_offers w = (Ok already_seeded, w))
  /\
  (documents "offer" (collections D) = [] ->
   exists w' D',
     seed_offers w = (Ok [("status", VStr "ok"); ("inserted", VInt 4)], w')
     /\ db w' = Some D'
     /\ documents "offer" (collections D') = stamped_from (next_id D) sample
     /\ List.length (documents "offer" (collections D')) = 4%nat
     /\ seed_offers w' = (Ok already_seeded, w')).
Proof.
  intros Hdb Hf. destruct w as [handle env]. simpl in Hdb. subst handle.
  split.
  - apply seed_offers_nonempty; assumption.
  - intros Hempty. do 2 eexists.
    split; [apply seed_offers_empty; assumption|].
    split; [reflexivity|].
    assert (Hdocs : documents "offer"
              (collections (fold_left (fun D' s => store_document "offer" s D')
                                      sample D))
            = stamped_from (next_id D) sample).
    { rewrite documents_store_all, Hempty. reflexivity. }
    split; [exact Hdocs|]. split; [rewrite Hdocs; reflexivity|].
    apply seed_offers_nonempty.
    + rewrite fault_store_all. exact Hf.
    + rewrite Hdocs. discriminate.
Qed.

(** ** Validation *)

Section ValidationFacts.
Context {P : Pydantic}.









(** Validation reads the body only through the declared fields. *)
Lemma Offer_validate_ext (d d' : dict) :
  (forall k, In k Offer_fields -> get k d' = get k d) ->
  Offer_validate d' = Offer_validate d.
Proof.
  intros H. unfold Offer_validate, required, optional, defaulted.
  rewrite !H by (simpl; tauto). reflexivity.
Qed.

Lemma str_items_strings (ss : list string) : str_items (map VStr ss) = Some ss.
Proof.
  induction ss as [|s ss IH]; [reflexivity|].
  simpl. now rewrite str_validator_str, IH.
Qed.

End ValidationFacts.

(** ** Creation *)

Lemma create_offer_healthy {P : Pydantic} (payload : OfferCreate)
  (D : Database) (env : dict) :
  fault D = None ->
  create_offer payload {| db := Some D; environ := env |}
  = (Ok [("id", VStr (str_of_oid (next_id D)))],
     {| db := Some (store_document "offer" (model_dump payload) D);
        environ := env |}).
Proof.
  intros Hf. unfold create_offer, bind at 1, gets. simpl.
  unfold bind. rewrite (create_document_healthy "offer" (OfModel payload) D env Hf).
  reflexivity.
Qed.

Lemma validate_inverted_payload {P : Pydantic} :
  Offer_validate inverted_payload
  = inr {| name := "Inverted"; apr := 10%float;
           min_amount := 5000; max_amount := 100;
           term_min_days := 30; term_max_days := 7;
           approval_rate := None; rating := None;
           description := None; link := None; tags := [] |}.
Proof.
  unfold Offer_validate, required, optional, defaulted, inverted_payload.
  cbn [get String.eqb Ascii.eqb Bool.eqb].
  unfold str_field, int_field, float_field.
  rewrite str_validator_str, float_validator_float, !int_validator_int.
  reflexivity.
Qed.

(** C7. The payload [inverted_payload] has [min_amount] above [max_amount]
    and [term_min_days] above [term_max_days], each field within its own
    bounds; it passes validation, and on a reachable store the create request
    is answered 201 with the new identifier and the record is stored. *)
Theorem inverted_ranges_are_accepted {P : Pydantic} {E : Pcre}
  (w : World) (D : Database) :
  db w = Some D ->
  fault D = None ->
  exists payload w' D',
    Offer_validate inverted_payload = inr payload
    /\ max_amount payload < min_amount payload
    /\ term_max_days payload < term_min_days payload
    /\ constraints_ok payload = true
    /\ post_api_offers (VDict inverted_payload) w
       = (Some (Response 201 [("id", VStr (str_of_oid (next_id D)))]), w')
    /\ db w' = Some D'
    /\ documents "offer" (collections D')
       = (documents "offer" (collections D)
          ++ [stamp (next_id D) (model_dump payload)])%list.
Proof.
  intros Hdb Hf. destruct w as [handle env]. simpl in Hdb. subst handle.
  eexists. eexists. eexists.
  split; [apply validate_inverted_payload|].
  split; [reflexivity|]. split; [reflexivity|]. split; [reflexivity|].
  split.
  - unfold post_api_offers. rewrite validate_inverted_payload.
    unfold serve. rewrite create_offer_healthy by exact Hf. reflexivity.
  - split; [reflexivity|]. apply documents_store_document.
Qed.

(** ** The diagnostic endpoint *)

(** C9. Whatever the state of the global handle (unset, set with the server
    unreachable, or set and reachable), [test_database] returns its status
    object and raises nothing, so [GET /test] answers 200; a failure of the
    store shows as text under [database]; [collections] holds at most ten
    names. *)
Theorem test_database_never_raises {P : Pydantic} {E : Pcre} (w : World) :
  exists response names,
    test_database w = (Ok response, w)
    /\ get_test w = (Some (Response 200 response), w)
    /\ get "database" response = Some (VStr (database_status w))
    /\ get "collections" response = Some (VList (map VStr names))
    /\ (List.length names <= 10)%nat.
Proof.
  destruct w as [[[nm [[msg|n msg]|] cs nid]|] env].
  - eexists. exists [].
    split; [reflexivity|]. split; [reflexivity|]. split; [reflexivity|].
    split; [reflexivity|]. simpl. lia.
  - eexists. exists (firstn 10 (map fst cs)).
    split; [reflexivity|]. split; [reflexivity|]. split; [reflexivity|].
    split; [reflexivity|]. apply firstn_le_length.
  - eexists. exists (firstn 10 (map fst cs)).
    split; [reflexivity|]. split; [reflexivity|]. split; [reflexivity|].
    split; [reflexivity|]. apply firstn_le_length.
  - eexists. exists [].
    split; [reflexivity|]. split; [reflexivity|]. split; [reflexivity|].
    split; [reflexivity|]. simpl. lia.
Qed.

(** ** The text clause *)

Lemma tag_membership (q : string) (tags : list string) :
  existsb (fun v => existsb (bson_eqb v) [VStr q]) (map VStr tags) = true
  <-> In q tags.
Proof.
  induction tags as [|t tags IH]; simpl.
  - split; [discriminate|tauto].
  - rewrite orb_false_r, orb_true_iff, IH, String.eqb_eq. intuition congruence.
Qed.

Lemma name_clause_literal {E : Pcre} (q name : string) (doc : dict) :
  literal q = true ->
  get "name" doc = Some (VStr name) ->
  name_clause q doc = contains (casefold q) (casefold name).
Proof.
  intros Hq Hn. unfold name_clause, eval_field. cbn. rewrite Hn. cbn.
  rewrite (regex_search_literal q name Hq).
  now rewrite orb_false_r, !andb_true_r.
Qed.

Lemma tags_clause_membership {E : Pcre} (q : string) (tags : list string)
  (doc : dict) :
  get "tags" doc = Some (VList (map VStr tags)) ->
  tags_clause q doc = true <-> In q tags.
Proof.
  intros Ht. unfold tags_clause, eval_field. cbn. rewrite Ht. cbn.
  rewrite andb_true_r. apply tag_membership.
Qed.

Lemma selects_text {E : Pcre} (q : string) (doc : dict) :
  q <> "" ->
  selects (Some q) None None None None doc
  = name_clause q doc || tags_clause q doc.
Proof.
  intros Hq. apply String.eqb_neq in Hq.
  unfold selects, build_filter, name_clause, tags_clause. cbn. rewrite Hq. cbn.
  now rewrite ?andb_true_r, ?orb_false_r.
Qed.

Lemma text_query_supported {E : Pcre} (q : string) :
  q <> "" ->
  literal q = true ->
  exists filter_dict,
    build_filter (Some q) None None None None = Ok filter_dict
    /\ check_query (VDict filter_dict) = Ok tt.
Proof.
  intros Hne Hq. apply String.eqb_neq in Hne.
  unfold build_filter. cbn. rewrite Hne. cbn. eexists. split; [reflexivity|].
  cbn. rewrite (regex_valid_literal q Hq). reflexivity.
Qed.

(** C4 (as amended). For a non-empty [q] without regular-expression
    metacharacters, the filter is one the store accepts, and it selects a
    record exactly when [q] occurs in the record's name whatever the case or
    equals one of its tags; an empty [q] builds the filter of an absent
    one. *)
Theorem literal_text_clause {E : Pcre} (q name : string) (tags : list string)
  (doc : dict) :
  q <> "" ->
  literal q = true ->
  get "name" doc = Some (VStr name) ->
  get "tags" doc = Some (VList (map VStr tags)) ->
  (exists filter_dict,
     build_filter (Some q) None None None None = Ok filter_dict
     /\ check_query (VDict filter_dict) = Ok tt)
  /\ (selects (Some q) None None None None doc = true
      <-> contains (casefold q) (casefold name) = true \/ In q tags)
  /\ (forall max_apr min_amount max_amount min_rating,
        build_filter (Some "") max_apr min_amount max_amount min_rating
        = build_filter None max_apr min_amount max_amount min_rating).
Proof.
  intros Hne Hq Hn Ht.
  split; [apply text_query_supported; assumption|]. split.
  - rewrite (selects_text q doc Hne), orb_true_iff.
    rewrite (name_clause_literal q name doc Hq Hn).
    rewrite (tags_clause_membership q tags doc Ht). reflexivity.
  - reflexivity.
Qed.

(** C4, refuted as stated: for an engine that reads [|] as alternation, the
    search string [a|b] selects the record named [b] without tags, though
    the name does not contain the text [a|b]. *)
Lemma pattern_is_not_plain_text :
  ~ text_clause_is_substring_or_tag (E := AlternationEngine) "a|b" "b" [].
Proof.
  unfold text_clause_is_substring_or_tag. intros [H _].
  destruct (H eq_refl) as [Hc|[]]. discriminate Hc.
Qed.

(** ** Reading a stored model back *)

Section ReadBack.
Context {P : Pydantic}.

Lemma check_float_within (lo hi f : float) :
  PrimFloat.leb lo f && PrimFloat.leb f hi = true ->
  check_float (Some lo) (Some hi) f = inr f.
Proof.
  intros H. apply andb_true_iff in H as [Hlo Hhi].
  unfold check_float. now rewrite Hlo, Hhi.
Qed.

Lemma optional_float_dump (k : string) (lo hi : float) (o : option float) (d : dict) :
  get k d = Some (dump_opt VFloat o) ->
  within lo hi o = true ->
  optional k (float_field (Some lo) (Some hi)) d = inr o.
Proof.
  intros Hg Hw. unfold optional. rewrite Hg. destruct o as [f|]; simpl.
  - unfold float_field. rewrite float_validator_float.
    now rewrite (check_float_within lo hi f Hw).
  - reflexivity.
Qed.

Lemma optional_str_dump (k : string) (o : option string) (d : dict) :
  get k d = Some (dump_opt VStr o) ->
  optional k str_field d = inr o.
Proof.
  intros Hg. unfold optional. rewrite Hg. destruct o as [s|]; simpl.
  - unfold str_field. now rewrite str_validator_str.
  - reflexivity.
Qed.

(** A model within its bounds, once dumped, validates to itself, up to what
    the URL validator makes of its link. *)
Lemma Offer_validate_model_dump (o : Offer) (l : option string) :
  constraints_ok o = true ->
  reread_link o = Some l ->
  Offer_validate (model_dump o) = inr (with_link o l).
Proof.
  intros Hc Hl. unfold constraints_ok in Hc.
  apply andb_true_iff in Hc as [Hc Hrating].
  apply andb_true_iff in Hc as [Hc Happroval].
  apply andb_true_iff in Hc as [Hc Htmax].
  apply andb_true_iff in Hc as [Hc Htmin].
  apply andb_true_iff in Hc as [Hc Hmax].
  apply andb_true_iff in Hc as [Hapr Hmin].
  unfold Offer_validate.
  rewrite (optional_float_dump "approval_rate" _ _ (approval_rate o)) by
    (reflexivity || assumption).
  rewrite (optional_float_dump "rating" _ _ (rating o)) by
    (reflexivity || assumption).
  rewrite (optional_str_dump "description" (description o)) by reflexivity.
  unfold required, defaulted. cbn [model_dump get String.eqb Ascii.eqb Bool.eqb].
  unfold str_field, float_field, int_field, str_list_field.
  rewrite str_validator_str, float_validator_float, !int_validator_int.
  rewrite str_items_strings. unfold check_float, check_int.
  rewrite Hapr, Hmin, Hmax, Htmin, Htmax.
  unfold optional, reread_link in *.
  cbn [model_dump get String.eqb Ascii.eqb Bool.eqb].
  destruct (link o) as [u|]; simpl in *.
  - unfold url_field. destruct (url_validator (VStr u)); [|discriminate].
    injection Hl as <-. reflexivity.
  - injection Hl as <-. reflexivity.
Qed.

Lemma public_of_stamped_dump (i : ObjectId) (o : Offer) (l : option string) :
  constraints_ok o = true ->
  reread_link o = Some l ->
  public_of_document (stamp i (model_dump o))
  = Ok {| offer := with_link o l; id := Some (str_of_oid i) |}.
Proof.
  intros Hc Hl. unfold public_of_document, stamp, pop.
  cbn [get remove model_dump String.eqb Ascii.eqb Bool.eqb str_value obind].
  unfold OfferPublic_validate.
  rewrite (Offer_validate_ext (model_dump o)).
  - rewrite (Offer_validate_model_dump o l Hc Hl).
    unfold optional. rewrite get_setitem_same.
    unfold str_field. rewrite str_validator_str. reflexivity.
  - intros k Hk. apply get_setitem_other. simpl in Hk.
    intros ->. repeat (destruct Hk as [Hk|Hk]; [discriminate Hk|]). exact Hk.
Qed.

(** Records stored from models within their bounds, whose links the URL
    validator reads back unchanged, are listed as they were created, with
    their identifier added. *)
Lemma publish_stored_models (rs : list (ObjectId * Offer)) :
  Forall (fun r => constraints_ok (snd r) = true
                   /\ reread_link (snd r) = Some (link (snd r))) rs ->
  publish (map stored_form rs) = Ok (map public_form rs).
Proof.
  induction 1 as [|[i o] rs [Hc Hl] _ IH]; [reflexivity|].
  unfold publish in *. cbn [map collect]. unfold stored_form at 1. cbn [fst snd].
  rewrite (public_of_stamped_dump i o (link o) Hc Hl), IH.
  cbn [obind map]. unfold public_form at 2. cbn [fst snd].
  destruct o; reflexivity.
Qed.

End ReadBack.

(** ** The example request on the seed data *)

Lemma sample_is_dump :
  sample = map model_dump [offer_fast; offer_reliable; offer_zaimer; offer_rublgo].
Proof. reflexivity. Qed.

Lemma example_selection {E : Pcre} (i : ObjectId) :
  filter (selects None (Some 25%float) None None (Some 4.3%float))
         (stamped_from i sample)
  = [stamp (N.succ i) (model_dump offer_reliable);
     stamp (N.succ (N.succ i)) (model_dump offer_zaimer)].
Proof. reflexivity. Qed.

(** C1 (as amended). After seeding a reachable store whose [offer] collection
    is empty, the request [max_apr=25&min_rating=4.3] is answered with
    exactly two records, "Надёжный Займ" and "Займер", in that order. *)
Theorem example_listing_has_two_records {P : Pydantic} {E : Pcre}
  (w : World) (D : Database) :
  db w = Some D ->
  fault D = None ->
  documents "offer" (collections D) = [] ->
  links_accepted [offer_reliable; offer_zaimer] = true ->
  exists w' first second,
    post_api_offers_seed w
    = (Some (Response 200 [("status", VStr "ok"); ("inserted", VInt 4)]), w')
    /\ example_listing w' = (Some (Response 200 [first; second]), w')
    /\ name (offer first) = "Надёжный Займ"
    /\ name (offer second) = "Займер".
Proof.
  intros Hdb Hf Hempty Hlinks. destruct w as [handle env]. simpl in Hdb. subst handle.
  unfold links_accepted in Hlinks. cbn [forallb] in Hlinks.
  destruct (reread_link offer_reliable) as [l1|] eqn:Hl1; [|discriminate].
  destruct (reread_link offer_zaimer) as [l2|] eqn:Hl2; [|discriminate].
  set (D' := fold_left (fun D' s => store_document "offer" s D') sample D).
  exists {| db := Some D'; environ := env |}.
  exists {| offer := with_link offer_reliable l1;
            id := Some (str_of_oid (N.succ (next_id D))) |}.
  exists {| offer := with_link offer_zaimer l2;
            id := Some (str_of_oid (N.succ (N.succ (next_id D)))) |}.
  split.
  - unfold post_api_offers_seed, serve.
    now rewrite (seed_offers_empty D env Hf Hempty).
  - split; [|split; reflexivity].
    unfold example_listing, get_api_offers.
    change (query_errors (Some 25%float) None None (Some 4.3%float)) with (@nil (string * field_error)).
    unfold serve.
    rewrite (list_offers_healthy None (Some 25%float) None None (Some 4.3%float)
               [("apr", VDict [("$lte", VFloat 25%float)]);
                ("rating", VDict [("$gte", VFloat 4.3%float)])] D' env);
      [|unfold D'; rewrite fault_store_all; exact Hf|reflexivity|reflexivity].
    unfold D'. rewrite documents_store_all, Hempty. cbn [app].
    rewrite example_selection. unfold publish. cbn [collect].
    rewrite (public_of_stamped_dump _ offer_reliable l1 eq_refl Hl1).
    rewrite (public_of_stamped_dump _ offer_zaimer l2 eq_refl Hl2).
    reflexivity.
Qed.

(** C1, refuted as stated: on the seeded store the example request is not
    answered with the single record "Надёжный Займ". *)
Lemma example_listing_is_not_one_record :
  ~ exists only,
      fst (example_listing (P := exact_types) (E := AlternationEngine)
             (snd (post_api_offers_seed fresh_world)))
      = Some (Response 200 [only])
      /\ name (offer only) = "Надёжный Займ".
Proof.
  intros (only & H & _). vm_compute in H. discriminate H.
Qed.

(** ** The handlers on concrete requests *)

Example seed_then_list_everything :
  match fst (get_api_offers None None None None None seeded_world) with
  | Some (Response 200 found) => map (fun p => name (offer p)) found
  | _ => []
  end
  = ["Быстрые Деньги"; "Надёжный Займ"; "Займер"; "РубльGo"].
Proof. vm_compute. reflexivity. Qed.

Example search_by_tag :
  match fst (get_api_offers (Some "онлайн") None None None None seeded_world) with
  | Some (Response 200 found) => map (fun p => name (offer p)) found
  | _ => []
  end
  = ["Быстрые Деньги"].
Proof. vm_compute. reflexivity. Qed.

Example negative_max_apr_is_refused :
  fst (get_api_offers None (Some (-1)%float) None None None seeded_world)
  = Some (unprocessable [("max_apr", GreaterThanEqual)]).
Proof. vm_compute. reflexivity. Qed.

Example listing_needs_a_database :
  fst (get_api_offers None None None None None {| db := None; environ := [] |})
  = Some (ErrorResponse 500 (Message "Database not configured")).
Proof. vm_compute. reflexivity. Qed.

Example create_with_stray_id :
  fst (post_api_offers (VDict body_with_id) seeded_world)
  = Some (Response 201 [("id", VStr "000000000000000000000004")]).
Proof. vm_compute. reflexivity. Qed.

(** ** The statements at concrete inputs *)

Lemma example_listing_has_two_records_witness :
  db fresh_world = Some empty_database
  /\ fault empty_database = None
  /\ documents "offer" (collections empty_database) = []
  /\ links_accepted [offer_reliable; offer_zaimer] = true
  /\ exists w' first second,
       post_api_offers_seed fresh_world
       = (Some (Response 200 [("status", VStr "ok"); ("inserted", VInt 4)]), w')
       /\ example_listing w' = (Some (Response 200 [first; second]), w')
       /\ name (offer first) = "Надёжный Займ"
       /\ name (offer second) = "Займер".
Proof.
  split; [reflexivity|]. split; [reflexivity|]. split; [reflexivity|].
  split; [reflexivity|].
  apply (example_listing_has_two_records fresh_world empty_database);
    reflexivity.
Defined.

Lemma literal_text_clause_witness :
  "money" <> ""
  /\ literal "money" = true
  /\ get "name" searchable_record = Some (VStr "Fast Money")
  /\ get "tags" searchable_record = Some (VList (map VStr ["online"]))
  /\ (selects (Some "money") None None None None searchable_record = true
      <-> contains (casefold "money") (casefold "Fast Money") = true
          \/ In "money" ["online"]).
Proof.
  split; [discriminate|]. split; [reflexivity|]. split; [reflexivity|].
  split; [reflexivity|].
  apply (literal_text_clause "money" "Fast Money" ["online"] searchable_record);
    [discriminate|reflexivity|reflexivity|reflexivity].
Defined.

Lemma seed_is_idempotent_witness :
  db fresh_world = Some empty_database
  /\ fault empty_database = None
  /\ documents "offer" (collections empty_database) = []
  /\ exists w' D',
       seed_offers fresh_world
       = (Ok [("status", VStr "ok"); ("inserted", VInt 4)], w')
       /\ db w' = Some D'
       /\ documents "offer" (collections D') = stamped_from 0%N sample
       /\ List.length (documents "offer" (collections D')) = 4%nat
       /\ seed_offers w' = (Ok already_seeded, w').
Proof.
  split; [reflexivity|]. split; [reflexivity|]. split; [reflexivity|].
  apply (seed_is_idempotent fresh_world empty_database); reflexivity.
Defined.

Lemma inverted_ranges_are_accepted_witness :
  db seeded_world = Some seeded_database
  /\ fault seeded_database = None
  /\ exists payload w' D',
       Offer_validate inverted_payload = inr payload
       /\ max_amount payload < min_amount payload
       /\ term_max_days payload < term_min_days payload
       /\ constraints_ok payload = true
       /\ post_api_offers (VDict inverted_payload) seeded_world
          = (Some (Response 201
                     [("id", VStr (str_of_oid (next_id seeded_database)))]), w')
       /\ db w' = Some D'
       /\ documents "offer" (collections D')
          = (documents "offer" (collections seeded_database)
             ++ [stamp (next_id seeded_database) (model_dump payload)])%list.
Proof.
  split; [reflexivity|]. split; [reflexivity|].
  apply (inverted_ranges_are_accepted seeded_world seeded_database); reflexivity.
Defined.

Lemma min_rating_excludes_unrated_witness :
  db unrated_world = Some unrated_database
  /\ fault unrated_database = None
  /\ (get "rating" unrated_record = None
      \/ get "rating" unrated_record = Some VNone)
  /\ In unrated_record (documents "offer" (collections unrated_database))
  /\ exists selected,
       list_offers None None None None (Some 0%float) unrated_world
       = (publish selected, unrated_world)
       /\ selects None None None None (Some 0%float) unrated_record = false
       /\ ~ In unrated_record selected.
Proof.
  split; [reflexivity|]. split; [reflexivity|].
  split; [right; reflexivity|].
  split; [simpl; tauto|].
  destruct (min_rating_excludes_unrated 0%float unrated_world unrated_database
              eq_refl eq_refl) as (selected & Hrun & Hout).
  exists selected. split; [exact Hrun|].
  apply Hout. right. reflexivity.
Defined.

(** * Further properties *)

(** ** What validation lets through *)

Section Acceptance.
Context {P : Pydantic}.

Lemma ap_inr {A B} (f : validated (A -> B)) (x : validated A) (b : B) :
  f <*> x = inr b -> exists g a, f = inr g /\ x = inr a /\ b = g a.
Proof.
  destruct f as [ef|g], x as [ex|a]; simpl; intros H; try discriminate.
  injection H as <-. now exists g, a.
Qed.

Lemma check_int_lower (lo z z' : Z) :
  check_int (Some lo) None z = inr z' -> z' = z /\ (lo <=? z) = true.
Proof.
  unfold check_int. simpl. destruct (lo <=? z); simpl; intros H;
    [injection H as <-; auto|discriminate].
Qed.

Lemma check_int_range (lo hi z z' : Z) :
  check_int (Some lo) (Some hi) z = inr z' -> z' = z /\ lo <= z <= hi.
Proof.
  unfold check_int. destruct (z <=? hi) eqn:Hhi; simpl; [|discriminate].
  destruct (lo <=? z) eqn:Hlo; simpl; intros H; [|discriminate].
  injection H as <-. apply Z.leb_le in Hhi, Hlo. auto.
Qed.

Lemma check_float_lower (lo f f' : float) :
  check_float (Some lo) None f = inr f' -> f' = f /\ PrimFloat.leb lo f = true.
Proof.
  unfold check_float. simpl. destruct (PrimFloat.leb lo f); simpl; intros H;
    [injection H as <-; auto|discriminate].
Qed.

Lemma check_float_range (lo hi f f' : float) :
  check_float (Some lo) (Some hi) f = inr f' ->
  f' = f /\ PrimFloat.leb lo f && PrimFloat.leb f hi = true.
Proof.
  unfold check_float. destruct (PrimFloat.leb f hi); simpl; [|discriminate].
  destruct (PrimFloat.leb lo f); simpl; intros H; [|discriminate].
  injection H as <-. auto.
Qed.

Lemma required_int_sound (k : string) (lo : Z) (d : dict) (z : Z) :
  required k (int_field (Some lo) None) d = inr z -> (lo <=? z) = true.
Proof.
  unfold required, int_field. destruct (get k d) as [v|]; [|discriminate].
  destruct (int_validator v) as [z0|]; [|discriminate].
  destruct (check_int (Some lo) None z0) as [e|z1] eqn:Hc; simpl; [discriminate|].
  intros H. injection H as <-. now destruct (check_int_lower lo z0 z1 Hc) as [-> ?].
Qed.

Lemma required_float_sound (k : string) (lo : float) (d : dict) (f : float) :
  required k (float_field (Some lo) None) d = inr f -> PrimFloat.leb lo f = true.
Proof.
  unfold required, float_field. destruct (get k d) as [v|]; [|discriminate].
  destruct (float_validator v) as [f0|]; [|discriminate].
  destruct (check_float (Some lo) None f0) as [e|f1] eqn:Hc; simpl; [discriminate|].
  intros H. injection H as <-. now destruct (check_float_lower lo f0 f1 Hc) as [-> ?].
Qed.

Lemma optional_float_sound (k : string) (lo hi : float) (d : dict)
  (o : option float) :
  optional k (float_field (Some lo) (Some hi)) d = inr o -> within lo hi o = true.
Proof.
  unfold optional, float_field.
  assert (Hv : forall v,
            at_field k
              match match float_validator v with
                    | Some f => check_float (Some lo) (Some hi) f
                    | None => inl WrongType
                    end with
              | inl e => inl e
              | inr a => inr (Some a)
              end = inr o -> within lo hi o = true).
  { intros v. destruct (float_validator v) as [f0|]; [|discriminate].
    destruct (check_float (Some lo) (Some hi) f0) as [e|f1] eqn:Hc; simpl;
      [discriminate|].
    intros H. injection H as <-.
    destruct (check_float_range lo hi f0 f1 Hc) as [-> Hw]. exact Hw. }
  destruct (get k d) as [v|]; [|intros H; injection H as <-; reflexivity].
  destruct v; try apply Hv. intros H. injection H as <-. reflexivity.
Qed.

(** Every payload that passes validation is within the bounds of the
    schema. *)
Lemma Offer_validate_sound (d : dict) (o : Offer) :
  Offer_validate d = inr o -> constraints_ok o = true.
Proof.
  unfold Offer_validate. intros H.
  repeat (apply ap_inr in H as (? & ? & H & ? & ->)).
  injection H as <-. unfold constraints_ok. cbn [apr min_amount max_amount
    term_min_days term_max_days approval_rate rating].
  repeat match goal with
         | Hr : required _ (int_field _ _) _ = inr _ |- _ =>
             apply required_int_sound in Hr
         | Hr : required _ (float_field _ _) _ = inr _ |- _ =>
             apply required_float_sound in Hr
         | Hr : optional _ (float_field _ _) _ = inr _ |- _ =>
             apply optional_float_sound in Hr
         end.
  repeat (apply andb_true_iff; split); assumption.
Qed.

Lemma with_link_same (o : Offer) : with_link o (link o) = o.
Proof. now destruct o. Qed.





End Acceptance.

Lemma post_api_offers_accepted {P : Pydantic} {E : Pcre} (d : dict) (o : Offer)
  (D : Database) (env : dict) :
  fault D = None ->
  Offer_validate d = inr o ->
  post_api_offers (VDict d) {| db := Some D; environ := env |}
  = (Some (created (next_id D)),
     {| db := Some (store_document "offer" (model_dump o) D); environ := env |}).
Proof.
  intros Hf Hv. unfold post_api_offers. rewrite Hv. unfold serve.
  now rewrite (create_offer_healthy o D env Hf).
Qed.

(** ** Validation errors and their answers *)

Lemma json_compliant_dict_cons (k : string) (v : value) (d : dict) :
  json_compliant (VDict ((k, v) :: d))
  = json_compliant v && json_compliant (VDict d).
Proof. reflexivity. Qed.



Lemma json_compliant_setitem (k : string) (v : value) (d : dict) :
  get k d = None ->
  json_compliant (VDict (setitem k v d))
  = json_compliant (VDict d) && json_compliant v.
Proof.
  induction d as [|[k' x] d IH]; intros Hg.
  - simpl. now rewrite andb_true_r.
  - simpl in Hg. cbn [setitem]. destruct (String.eqb k k'); [discriminate|].
    rewrite !json_compliant_dict_cons, (IH Hg). now rewrite andb_assoc.
Qed.


Section ErrorInputs.
Context {P : Pydantic}.




(** A null added for a field the body lacks changes no input that cannot be
    written. *)
Lemma error_inputs_null (k : string) (d : dict) (errs : errors) :
  get k d = None ->
  forallb json_compliant (Offer_error_inputs (setitem k VNone d) errs)
  = forallb json_compliant (Offer_error_inputs d errs).
Proof.
  intros Hg. unfold Offer_error_inputs.
  induction errs as [|[k' e] errs IH]; [reflexivity|].
  cbn [flat_map]. rewrite !forallb_app, IH. f_equal.
  unfold Offer_error_input. cbn [fst snd].
  assert (Hfield : forall body,
            body = setitem k VNone d ->
            forallb json_compliant
              match get k' body with
              | Some (VList l) =>
                  if String.eqb k' "tags" then
                    filter (fun v => match str_validator v with
                                     | Some _ => false
                                     | None => true
                                     end) l
                  else [VList l]
              | Some v => [v]
              | None => []
              end
            = forallb json_compliant
                match get k' d with
                | Some (VList l) =>
                    if String.eqb k' "tags" then
                      filter (fun v => match str_validator v with
                                       | Some _ => false
                                       | None => true
                                       end) l
                    else [VList l]
                | Some v => [v]
                | None => []
                end).
  { intros body ->. destruct (String.eqb_spec k' k) as [->|Hne].
    - rewrite get_setitem_same, Hg. reflexivity.
    - now rewrite (get_setitem_other k' k VNone d Hne). }
  destruct e; try (apply Hfield; reflexivity).
  cbn [forallb]. rewrite (json_compliant_setitem k VNone d Hg).
  now rewrite andb_true_r.
Qed.

End ErrorInputs.

(** A body that fails validation is answered 422 or 500, and the state is as
    before. *)
Lemma post_api_offers_refused {P : Pydantic} {E : Pcre} (d : dict) (errs : errors)
  (w : World) :
  Offer_validate d = inl errs ->
  post_api_offers (VDict d) w
  = (Some (validation_response (Offer_error_inputs d errs) errs), w).
Proof.
  intros Hv. unfold post_api_offers. now rewrite Hv.
Qed.

(** X1. On a reachable store a create request is answered 201 only when its
    body validates; the payload is then within every bound of the schema,
    the answer carries the identifier the store assigned, and the [offer]
    collection is the old one followed by the dump of the payload under that
    identifier. *)
Theorem created_record_is_the_validated_payload {P : Pydantic} {E : Pcre}
  (d : dict) (w w' : World) (D : Database) (answer : dict) :
  reachable w D ->
  post_api_offers (VDict d) w = (Some (Response 201 answer), w') ->
  exists payload D',
    Offer_validate d = inr payload
    /\ constraints_ok payload = true
    /\ answer = [("id", VStr (str_of_oid (next_id D)))]
    /\ db w' = Some D'
    /\ offers D' = (offers D ++ [stamp (next_id D) (model_dump payload)])%list.
Proof.
  intros [Hdb Hf] Hpost. destruct w as [handle env]. simpl in Hdb. subst handle.
  destruct (Offer_validate d) as [errs|payload] eqn:Hv.
  - rewrite (post_api_offers_refused d errs _ Hv) in Hpost.
    unfold validation_response in Hpost.
    destruct (forallb json_compliant (Offer_error_inputs d errs));
      discriminate Hpost.
  - rewrite (post_api_offers_accepted d payload D env Hf Hv) in Hpost.
    injection Hpost as <- <-.
    exists payload, (store_document "offer" (model_dump payload) D).
    split; [reflexivity|]. split; [exact (Offer_validate_sound d payload Hv)|].
    split; [reflexivity|]. split; [reflexivity|].
    apply documents_store_document.
Qed.

Lemma created_record_is_the_validated_payload_witness :
  reachable seeded_world seeded_database
  /\ post_api_offers (VDict plain_body) seeded_world
     = (Some (Response 201 [("id", VStr "000000000000000000000004")]),
        unrated_world)
  /\ exists payload D',
       Offer_validate plain_body = inr payload
       /\ constraints_ok payload = true
       /\ [("id", VStr "000000000000000000000004")]
          = [("id", VStr (str_of_oid (next_id seeded_database)))]
       /\ db unrated_world = Some D'
       /\ offers D'
          = (offers seeded_database
             ++ [stamp (next_id seeded_database) (model_dump payload)])%list.
Proof.
  assert (Hr : reachable seeded_world seeded_database) by (split; reflexivity).
  assert (Hp : post_api_offers (VDict plain_body) seeded_world
               = (Some (Response 201 [("id", VStr "000000000000000000000004")]),
                  unrated_world)) by (vm_compute; reflexivity).
  split; [exact Hr|]. split; [exact Hp|].
  exact (created_record_is_the_validated_payload plain_body seeded_world
           unrated_world seeded_database _ Hr Hp).
Defined.



(** X3. For each optional field ([approval_rate], [rating], [description],
    [link]) an explicit null is read as the field being absent: adding the
    null to a body that lacks the field changes neither the outcome of
    validation nor the answer of the create request. *)
Theorem null_optional_field_is_absent {P : Pydantic} {E : Pcre}
  (d : dict) (k : string) (w : World) :
  In k optional_fields ->
  get k d = None ->
  Offer_validate (setitem k VNone d) = Offer_validate d
  /\ post_api_offers (VDict (setitem k VNone d)) w = post_api_offers (VDict d) w.
Proof.
  intros Hk Hg.
  assert (Hv : Offer_validate (setitem k VNone d) = Offer_validate d).
  { simpl in Hk.
    destruct Hk as [<-|[<-|[<-|[<-|[]]]]];
      unfold Offer_validate, required, optional, defaulted;
      rewrite get_setitem_same, Hg;
      rewrite !get_setitem_other by discriminate; reflexivity. }
  split; [exact Hv|]. unfold post_api_offers. rewrite Hv.
  destruct (Offer_validate d) as [errs|payload]; [|reflexivity].
  unfold validation_response. now rewrite (error_inputs_null k d errs Hg).
Qed.

Lemma null_optional_field_is_absent_witness :
  In "rating" optional_fields
  /\ get "rating" plain_body = None
  /\ Offer_validate (setitem "rating" VNone plain_body) = Offer_validate plain_body
  /\ post_api_offers (VDict (setitem "rating" VNone plain_body)) seeded_world
     = post_api_offers (VDict plain_body) seeded_world.
Proof.
  assert (Hk : In "rating" optional_fields) by (simpl; tauto).
  split; [exact Hk|]. split; [reflexivity|].
  exact (null_optional_field_is_absent plain_body "rating" seeded_world Hk eq_refl).
Defined.

(** X4. A payload that passed validation, once dumped as [create_document]
    stores it, validates again to the same payload, provided the URL
    validator reads the payload's own link back unchanged. *)
Theorem accepted_payload_survives_the_dump {P : Pydantic}
  (d : dict) (payload : Offer) :
  Offer_validate d = inr payload ->
  reread_link payload = Some (link payload) ->
  Offer_validate (model_dump payload) = inr payload.
Proof.
  intros Hv Hl.
  rewrite (Offer_validate_model_dump payload (link payload)
             (Offer_validate_sound d payload Hv) Hl).
  now rewrite with_link_same.
Qed.

Lemma accepted_payload_survives_the_dump_witness :
  Offer_validate plain_body = inr unrated_offer
  /\ reread_link unrated_offer = Some (link unrated_offer)
  /\ Offer_validate (model_dump unrated_offer) = inr unrated_offer.
Proof.
  split; [reflexivity|]. split; [reflexivity|].
  exact (accepted_payload_survives_the_dump plain_body unrated_offer eq_refl eq_refl).
Defined.

(** ** Creating and listing *)


Lemma filter_everything {E : Pcre} (docs : list dict) :
  filter (selects None None None None None) docs = docs.
Proof.
  induction docs as [|d docs IH]; [reflexivity|].
  simpl. now rewrite IH.
Qed.

Lemma list_everything_healthy {P : Pydantic} {E : Pcre} (D : Database) (env : dict) :
  fault D = None ->
  list_offers None None None None None {| db := Some D; environ := env |}
  = (publish (offers D), {| db := Some D; environ := env |}).
Proof.
  intros Hf.
  rewrite (list_offers_healthy None None None None None [] D env Hf eq_refl eq_refl).
  now rewrite filter_everything.
Qed.



(** X6. Nothing detects duplicates: on a reachable store the same valid body
    sent twice is answered 201 twice, and the [offer] collection ends with
    two copies of the payload under consecutive identifiers. *)
Theorem same_body_twice_is_stored_twice {P : Pydantic} {E : Pcre}
  (d : dict) (payload : Offer) (w : World) (D : Database) :
  reachable w D ->
  Offer_validate d = inr payload ->
  exists w1 w2 D2,
    post_api_offers (VDict d) w = (Some (created (next_id D)), w1)
    /\ post_api_offers (VDict d) w1 = (Some (created (N.succ (next_id D))), w2)
    /\ db w2 = Some D2
    /\ offers D2
       = (offers D ++ [stamp (next_id D) (model_dump payload);
                       stamp (N.succ (next_id D)) (model_dump payload)])%list.
Proof.
  intros [Hdb Hf] Hv. destruct w as [handle env]. simpl in Hdb. subst handle.
  do 3 eexists. split; [apply post_api_offers_accepted; eassumption|].
  split; [apply post_api_offers_accepted; [exact Hf|exact Hv]|].
  split; [reflexivity|].
  unfold offers. rewrite !documents_store_document, <- app_assoc. reflexivity.
Qed.

Lemma same_body_twice_is_stored_twice_witness :
  reachable fresh_world empty_database
  /\ Offer_validate plain_body = inr unrated_offer
  /\ exists w1 w2 D2,
       post_api_offers (VDict plain_body) fresh_world
       = (Some (created (next_id empty_database)), w1)
       /\ post_api_offers (VDict plain_body) w1
          = (Some (created (N.succ (next_id empty_database))), w2)
       /\ db w2 = Some D2
       /\ offers D2
          = (offers empty_database
             ++ [stamp (next_id empty_database) (model_dump unrated_offer);
                 stamp (N.succ (next_id empty_database))
                       (model_dump unrated_offer)])%list.
Proof.
  assert (Hr : reachable fresh_world empty_database) by (split; reflexivity).
  split; [exact Hr|]. split; [reflexivity|].
  exact (same_body_twice_is_stored_twice plain_body unrated_offer fresh_world
           empty_database Hr eq_refl).
Defined.

(** ** What the endpoints do to the state, and without a working store *)

Lemma find_keeps_database {E : Pcre} (coll : string) (q : dict) (D : Database) :
  snd (find coll q D) = D.
Proof.
  unfold find, call. destruct (fault D) as [[msg|n msg]|]; reflexivity.
Qed.

Lemma list_offers_keeps_state {P : Pydantic} {E : Pcre}
  (q : option string) (max_apr : option float) (min_amount max_amount : option Z)
  (min_rating : option float) (w : World) :
  snd (list_offers q max_apr min_amount max_amount min_rating w) = w.
Proof.
  destruct w as [[D|] env]; [|reflexivity].
  unfold list_offers, bind at 1, gets. cbn [db].
  unfold bind at 1, lift at 1.
  destruct (build_filter q max_apr min_amount max_amount min_rating) as [fd| |];
    [|reflexivity|reflexivity].
  unfold bind at 1, get_documents, on_db. cbn [db environ].
  pose proof (find_keeps_database "offer" fd D) as Hk.
  destruct (find "offer" fd D) as [[docs|e|] D']; simpl in Hk; subst D';
    [|reflexivity|reflexivity].
  now rewrite mapM_lift_collect.
Qed.

(** X7. The listing never writes: whatever the parameters and whatever the
    state (no handle, an unreachable store, a reachable one), [GET
    /api/offers] leaves the state exactly as it found it. *)
Theorem listing_leaves_the_state_alone {P : Pydantic} {E : Pcre}
  (q : option string) (max_apr : option float) (min_amount max_amount : option Z)
  (min_rating : option float) (w : World) :
  snd (get_api_offers q max_apr min_amount max_amount min_rating w) = w.
Proof.
  unfold get_api_offers.
  destruct (query_errors max_apr min_amount max_amount min_rating);
    [|reflexivity].
  unfold serve.
  pose proof (list_offers_keeps_state q max_apr min_amount max_amount min_rating w)
    as Hk.
  destruct (list_offers q max_apr min_amount max_amount min_rating w)
    as [[found|[]|] w']; simpl in Hk; subst w'; reflexivity.
Qed.

(** X8. Without a configured database ([db] is [None]) the three endpoints
    that touch the store answer 500 with the detail "Database not
    configured" and leave the state as it is: the listing for parameters
    within their bounds, creation for a body that validates, and seeding. *)
Theorem unconfigured_store_is_a_500 {P : Pydantic} {E : Pcre}
  (q : option string) (max_apr : option float) (min_amount max_amount : option Z)
  (min_rating : option float) (d : dict) (payload : Offer) (w : World) :
  db w = None ->
  query_errors max_apr min_amount max_amount min_rating = [] ->
  Offer_validate d = inr payload ->
  get_api_offers q max_apr min_amount max_amount min_rating w
  = (Some (server_error "Database not configured"), w)
  /\ post_api_offers (VDict d) w
     = (Some (server_error "Database not configured"), w)
  /\ post_api_offers_seed w
     = (Some (server_error "Database not configured"), w).
Proof.
  intros Hdb Hq Hv. destruct w as [handle env]. simpl in Hdb. subst handle.
  split; [|split].
  - unfold get_api_offers. rewrite Hq. reflexivity.
  - unfold post_api_offers. rewrite Hv. reflexivity.
  - reflexivity.
Qed.

Lemma unconfigured_store_is_a_500_witness :
  db unconfigured_world = None
  /\ query_errors (Some 25%float) None None None = []
  /\ Offer_validate plain_body = inr unrated_offer
  /\ get_api_offers (Some "x") (Some 25%float) None None None unconfigured_world
     = (Some (server_error "Database not configured"), unconfigured_world)
  /\ post_api_offers (VDict plain_body) unconfigured_world
     = (Some (server_error "Database not configured"), unconfigured_world)
  /\ post_api_offers_seed unconfigured_world
     = (Some (server_error "Database not configured"), unconfigured_world).
Proof.
  split; [reflexivity|]. split; [reflexivity|]. split; [reflexivity|].
  exact (unconfigured_store_is_a_500 (Some "x") (Some 25%float) None None None
           plain_body unrated_offer unconfigured_world eq_refl eq_refl eq_refl).
Defined.

(** X9. When the store is unreachable, so that its first call raises, only
    seeding tells why: [seed_offers] catches the exception and answers 500
    with the exception's message as detail, while the listing and creation
    let it through, so the answer is the plain 500 of an unhandled
    exception.  The state is as before.  (A store that fails later, after
    some writes, is the matter of X24.) *)
Theorem store_failure_is_reported_by_seed_only {P : Pydantic} {E : Pcre}
  (q : option string) (max_apr : option float) (min_amount max_amount : option Z)
  (min_rating : option float) (d : dict) (payload : Offer)
  (w : World) (D : Database) (msg : string) :
  db w = Some D ->
  fault D = Some (Unreachable msg) ->
  query_errors max_apr min_amount max_amount min_rating = [] ->
  Offer_validate d = inr payload ->
  post_api_offers_seed w = (Some (server_error msg), w)
  /\ get_api_offers q max_apr min_amount max_amount min_rating w
     = (Some (server_error "Internal Server Error"), w)
  /\ post_api_offers (VDict d) w
     = (Some (server_error "Internal Server Error"), w).
Proof.
  intros Hdb Hf Hq Hv. destruct w as [handle env]. simpl in Hdb. subst handle.
  split; [|split].
  - unfold post_api_offers_seed, serve, seed_offers.
    set (loop := for_each _ sample 0).
    unfold bind at 1, gets. cbn [db].
    unfold try_except, bind at 1, on_db, count_documents, bind, find, call.
    cbn [db environ]. rewrite Hf. reflexivity.
  - unfold get_api_offers. rewrite Hq. unfold serve, list_offers.
    unfold bind at 1, gets. cbn [db]. unfold bind at 1, lift at 1.
    destruct (build_filter_total q max_apr min_amount max_amount min_rating)
      as [fd Hb].
    rewrite Hb. unfold bind at 1, get_documents, on_db, find, call.
    cbn [db environ]. rewrite Hf. reflexivity.
  - unfold post_api_offers. rewrite Hv.
    unfold serve, create_offer, bind at 1, gets. cbn [db].
    unfold bind, create_document, bind, on_db, insert_one, write_call.
    cbn [db environ]. rewrite Hf. reflexivity.
Qed.

Lemma store_failure_is_reported_by_seed_only_witness :
  db failing_world = Some failing_database
  /\ fault failing_database = Some (Unreachable "connection refused")
  /\ query_errors None (Some 10) None None = []
  /\ Offer_validate plain_body = inr unrated_offer
  /\ post_api_offers_seed failing_world
     = (Some (server_error "connection refused"), failing_world)
  /\ get_api_offers (Some "money") None (Some 10) None None failing_world
     = (Some (server_error "Internal Server Error"), failing_world)
  /\ post_api_offers (VDict plain_body) failing_world
     = (Some (server_error "Internal Server Error"), failing_world).
Proof.
  split; [reflexivity|]. split; [reflexivity|]. split; [reflexivity|].
  split; [reflexivity|].
  exact (store_failure_is_reported_by_seed_only (Some "money") None (Some 10)
           None None
           plain_body unrated_offer failing_world failing_database
           "connection refused" eq_refl eq_refl eq_refl eq_refl).
Defined.

(** ** Query parameters *)

Lemma param_reports {A} (k : string) (check : A -> field_error + A) (v : A)
  (e : field_error) :
  check v = inl e -> In (k, e) (param k check (Some v)).
Proof.
  intros H. unfold param. rewrite H. now left.
Qed.

(** X10. A listing request with a query parameter outside its declared
    bounds (a negative [max_apr], [min_amount] or [max_amount], a
    [min_rating] outside 0-5) is answered 422 with that parameter named, and
    no handler runs: the state is as before, with or without a store. *)
Theorem out_of_range_query_is_rejected {P : Pydantic} {E : Pcre}
  (q : option string) (max_apr : option float) (min_amount max_amount : option Z)
  (min_rating : option float) (k : string) (w : World) :
  out_of_range max_apr min_amount max_amount min_rating k ->
  exists errs e,
    In (k, e) errs
    /\ get_api_offers q max_apr min_amount max_amount min_rating w
       = (Some (unprocessable errs), w).
Proof.
  intros Hout.
  assert (Hin : exists e,
            In (k, e) (query_errors max_apr min_amount max_amount min_rating)).
  { unfold query_errors.
    destruct Hout as [v -> Hv | v -> Hv | v -> Hv | v -> Hv].
    - exists GreaterThanEqual. apply in_or_app. left.
      apply param_reports. unfold check_float. simpl. now rewrite Hv.
    - exists GreaterThanEqual. apply in_or_app. right. apply in_or_app. left.
      apply param_reports. unfold check_int. simpl.
      apply Z.leb_gt in Hv. now rewrite Hv.
    - exists GreaterThanEqual. apply in_or_app. right. apply in_or_app. right.
      apply in_or_app. left.
      apply param_reports. unfold check_int. simpl.
      apply Z.leb_gt in Hv. now rewrite Hv.
    - destruct (PrimFloat.leb v 5%float) eqn:Hhi.
      + rewrite andb_true_r in Hv. exists GreaterThanEqual.
        apply in_or_app. right. apply in_or_app. right. apply in_or_app. right.
        apply param_reports. unfold check_float. now rewrite Hhi, Hv.
      + exists LessThanEqual.
        apply in_or_app. right. apply in_or_app. right. apply in_or_app. right.
        apply param_reports. unfold check_float. now rewrite Hhi. }
  destruct Hin as [e Hin]. unfold get_api_offers.
  destruct (query_errors max_apr min_amount max_amount min_rating) as [|e0 errs];
    [destruct Hin|].
  exists (e0 :: errs), e. split; [exact Hin|reflexivity].
Qed.

Lemma out_of_range_query_is_rejected_witness :
  out_of_range None None None (Some 5.5%float) "min_rating"
  /\ exists errs e,
       In ("min_rating", e) errs
       /\ get_api_offers None None None None (Some 5.5%float) seeded_world
          = (Some (unprocessable errs), seeded_world).
Proof.
  assert (H : out_of_range None None None (Some 5.5%float) "min_rating").
  { apply (min_rating_outside None None None (Some 5.5%float) 5.5%float).
    - reflexivity.
    - reflexivity. }
  split; [exact H|].
  exact (out_of_range_query_is_rejected None None None None (Some 5.5%float)
           "min_rating" seeded_world H).
Defined.

(** ** More on the listing *)

Lemma num_leb_floats (a b : float) :
  is_nan a = false -> is_nan b = false ->
  num_leb (VFloat a) (VFloat b) = Some (PrimFloat.leb a b).
Proof.
  intros Ha Hb. unfold num_leb. now rewrite Ha, Hb.
Qed.

Lemma selects_max_apr {E : Pcre} (v a : float) (r : dict) :
  is_nan v = false -> is_nan a = false ->
  get "apr" r = Some (VFloat a) ->
  selects None (Some v) None None None r = PrimFloat.leb a v.
Proof.
  intros Hv Ha Hr. unfold selects. cbn -[num_leb]. unfold eval_field.
  cbn -[num_leb]. rewrite Hr. cbn -[num_leb].
  rewrite (num_leb_floats a v Ha Hv). now rewrite orb_false_r, !andb_true_r.
Qed.

Lemma selects_min_rating {E : Pcre} (v x : float) (r : dict) :
  is_nan v = false -> is_nan x = false ->
  get "rating" r = Some (VFloat x) ->
  selects None None None None (Some v) r = PrimFloat.leb v x.
Proof.
  intros Hv Hx Hr. unfold selects. cbn -[num_leb]. unfold eval_field.
  cbn -[num_leb]. rewrite Hr. cbn -[num_leb].
  rewrite (num_leb_floats v x Hv Hx). now rewrite orb_false_r, !andb_true_r.
Qed.

(** X11. On a reachable store, a listing with only [max_apr = v] is the
    public form of exactly the stored records whose [apr] is at most [v],
    and a listing with only [min_rating = v] that of exactly the rated
    records whose [rating] is at least [v] (floats compared as IEEE doubles,
    none of them NaN). *)
Theorem float_filters_compare_by_value {P : Pydantic} {E : Pcre}
  (v : float) (w : World) (D : Database) :
  reachable w D ->
  is_nan v = false ->
  (exists selected,
     list_offers None (Some v) None None None w = (publish selected, w)
     /\ forall r a, get "apr" r = Some (VFloat a) -> is_nan a = false ->
          (In r selected <-> In r (offers D) /\ PrimFloat.leb a v = true))
  /\
  (exists selected,
     list_offers None None None None (Some v) w = (publish selected, w)
     /\ forall r x, get "rating" r = Some (VFloat x) -> is_nan x = false ->
          (In r selected <-> In r (offers D) /\ PrimFloat.leb v x = true)).
Proof.
  intros [Hdb Hf] Hv. destruct w as [handle env]. simpl in Hdb. subst handle.
  split.
  - eexists. split.
    + eapply list_offers_healthy; [exact Hf|reflexivity|reflexivity].
    + intros r a Hr Ha.
      rewrite filter_In, (selects_max_apr v a r Hv Ha Hr). reflexivity.
  - eexists. split.
    + eapply list_offers_healthy; [exact Hf|reflexivity|reflexivity].
    + intros r x Hr Hx.
      rewrite filter_In, (selects_min_rating v x r Hv Hx Hr). reflexivity.
Qed.

Lemma float_filters_compare_by_value_witness :
  reachable seeded_world seeded_database
  /\ is_nan 25%float = false
  /\ (exists selected,
        list_offers None (Some 25%float) None None None seeded_world
        = (publish selected, seeded_world)
        /\ forall r a, get "apr" r = Some (VFloat a) -> is_nan a = false ->
             (In r selected
              <-> In r (offers seeded_database) /\ PrimFloat.leb a 25%float = true)).
Proof.
  assert (Hr : reachable seeded_world seeded_database) by (split; reflexivity).
  split; [exact Hr|]. split; [reflexivity|].
  exact (proj1 (float_filters_compare_by_value 25%float seeded_world
                  seeded_database Hr eq_refl)).
Defined.

Lemma range_query_supported {E : Pcre} (max_apr : option float)
  (min_amount max_amount : option Z) (min_rating : option float) :
  exists filter_dict,
    build_filter None max_apr min_amount max_amount min_rating = Ok filter_dict
    /\ check_query (VDict filter_dict) = Ok tt.
Proof.
  destruct max_apr, min_amount, max_amount, min_rating;
    eexists; split; reflexivity.
Qed.

Lemma collect_all_ok {A B} (f : A -> outcome B) (l : list A) (bs : list B) :
  collect f l = Ok bs -> forall a, In a l -> exists b, f a = Ok b.
Proof.
  revert bs. induction l as [|a0 l IH]; simpl; intros bs H a Hin; [destruct Hin|].
  destruct (f a0) as [b0| |] eqn:Hf0; simpl in H; try discriminate.
  destruct (collect f l) as [bs'| |]; simpl in H; try discriminate.
  destruct Hin as [<-|Hin]; [now exists b0|]. exact (IH bs' eq_refl a Hin).
Qed.

(** X12. One bad record spoils the listing: on a reachable store, when a
    record the filter selects cannot be turned into an [OfferPublic] (its
    [_id] is missing, or it fails validation), the request is not answered
    200 at all, whatever the other records are. *)
Theorem invalid_stored_record_fails_the_listing {P : Pydantic} {E : Pcre}
  (max_apr : option float) (min_amount max_amount : option Z)
  (min_rating : option float) (w : World) (D : Database) (r : dict) (e : exn) :
  reachable w D ->
  In r (offers D) ->
  selects None max_apr min_amount max_amount min_rating r = true ->
  public_of_document r = Raise e ->
  forall found,
    fst (get_api_offers None max_apr min_amount max_amount min_rating w)
    <> Some (Response 200 found).
Proof.
  intros [Hdb Hf] Hin Hsel Hbad found. destruct w as [handle env].
  simpl in Hdb. subst handle. unfold get_api_offers.
  destruct (query_errors max_apr min_amount max_amount min_rating);
    [|discriminate].
  destruct (range_query_supported max_apr min_amount max_amount min_rating)
    as (fd & Hb & Hq).
  unfold serve. rewrite (list_offers_healthy _ _ _ _ _ fd D env Hf Hb Hq).
  destruct (publish _) as [pubs|[]|] eqn:Hp; try discriminate.
  unfold publish in Hp.
  destruct (collect_all_ok _ _ _ Hp r) as [p Hok].
  - apply filter_In. split; assumption.
  - rewrite Hbad in Hok. discriminate Hok.
Qed.

Lemma invalid_stored_record_fails_the_listing_witness :
  reachable broken_world broken_database
  /\ In broken_record (offers broken_database)
  /\ selects None None None None None broken_record = true
  /\ public_of_document broken_record
     = Raise (ValidationError "OfferPublic"
                [("name", WrongType); ("apr", Missing); ("min_amount", Missing);
                 ("max_amount", Missing); ("term_min_days", Missing);
                 ("term_max_days", Missing)])
  /\ forall found,
       fst (get_api_offers None None None None None broken_world)
       <> Some (Response 200 found).
Proof.
  assert (Hr : reachable broken_world broken_database) by (split; reflexivity).
  assert (Hin : In broken_record (offers broken_database)) by (simpl; tauto).
  split; [exact Hr|]. split; [exact Hin|]. split; [reflexivity|].
  split; [reflexivity|].
  exact (invalid_stored_record_fails_the_listing None None None None broken_world
           broken_database broken_record _ Hr Hin eq_refl eq_refl).
Defined.

Lemma public_of_document_id {P : Pydantic} (d : dict) (p : OfferPublic) :
  public_of_document d = Ok p ->
  exists i s, get "_id" d = Some i /\ str_value i = Ok s /\ id p = Some s.
Proof.
  unfold public_of_document, pop.
  destruct (get "_id" d) as [i|]; [|discriminate].
  destruct (str_value i) as [s| |] eqn:Hs; simpl; try discriminate.
  destruct (OfferPublic_validate _) as [errs|p0] eqn:Hv; [discriminate|].
  intros H. injection H as <-. exists i, s. split; [reflexivity|].
  split; [exact Hs|].
  unfold OfferPublic_validate in Hv.
  apply ap_inr in Hv as (g & a & Hg & Ha & ->).
  apply ap_inr in Hg as (g' & o & Hg' & Ho & ->).
  injection Hg' as <-. simpl.
  unfold optional in Ha. rewrite get_setitem_same in Ha.
  unfold str_field in Ha. rewrite str_validator_str in Ha. simpl in Ha.
  now injection Ha as <-.
Qed.

Lemma publish_ids {P : Pydantic} (docs : list dict) (pubs : list OfferPublic) :
  publish docs = Ok pubs ->
  Forall2 (fun d p => exists i s,
             get "_id" d = Some i /\ str_value i = Ok s /\ id p = Some s)
          docs pubs.
Proof.
  unfold publish. revert pubs.
  induction docs as [|d docs IH]; simpl; intros pubs H.
  - injection H as <-. constructor.
  - destruct (public_of_document d) as [p| |] eqn:Hd; simpl in H; try discriminate.
    destruct (collect public_of_document docs) as [ps| |]; simpl in H;
      try discriminate.
    injection H as <-. constructor; [exact (public_of_document_id d p Hd)|].
    now apply IH.
Qed.

(** X13. When the unfiltered listing on a reachable store is answered 200,
    it has one record per stored offer, in stored order, and the [id] of
    each is the string form of the [_id] of its document; an [id] key the
    document may carry itself is overwritten. *)
Theorem listed_ids_are_the_stored_identifiers {P : Pydantic} {E : Pcre}
  (w w' : World) (D : Database) (found : list OfferPublic) :
  reachable w D ->
  list_everything w = (Some (Response 200 found), w') ->
  Forall2 (fun d p => exists i s,
             get "_id" d = Some i /\ str_value i = Ok s /\ id p = Some s)
          (offers D) found.
Proof.
  intros [Hdb Hf] Hl. destruct w as [handle env]. simpl in Hdb. subst handle.
  unfold list_everything, get_api_offers in Hl. cbn [query_errors param app] in Hl.
  unfold serve in Hl. rewrite (list_everything_healthy D env Hf) in Hl.
  destruct (publish (offers D)) as [pubs|[]|] eqn:Hp; try discriminate Hl.
  injection Hl as <- _. exact (publish_ids _ _ Hp).
Qed.

Lemma listed_ids_are_the_stored_identifiers_witness :
  reachable seeded_world seeded_database
  /\ list_everything seeded_world
     = (Some (Response 200
                [public_form (0%N, offer_fast); public_form (1%N, offer_reliable);
                 public_form (2%N, offer_zaimer); public_form (3%N, offer_rublgo)]),
        seeded_world)
  /\ Forall2 (fun d p => exists i s,
                get "_id" d = Some i /\ str_value i = Ok s /\ id p = Some s)
             (offers seeded_database)
             [public_form (0%N, offer_fast); public_form (1%N, offer_reliable);
              public_form (2%N, offer_zaimer); public_form (3%N, offer_rublgo)].
Proof.
  assert (Hr : reachable seeded_world seeded_database) by (split; reflexivity).
  assert (Hl : list_everything seeded_world
               = (Some (Response 200
                          [public_form (0%N, offer_fast);
                           public_form (1%N, offer_reliable);
                           public_form (2%N, offer_zaimer);
                           public_form (3%N, offer_rublgo)]),
                  seeded_world)) by (vm_compute; reflexivity).
  split; [exact Hr|]. split; [exact Hl|].
  exact (listed_ids_are_the_stored_identifiers seeded_world seeded_world
           seeded_database _ Hr Hl).
Defined.

Lemma get_remove_other (k k' : string) (d : dict) :
  k <> k' -> get k (remove k' d) = get k d.
Proof.
  intros Hne. induction d as [|[k0 v0] d IH]; [reflexivity|].
  simpl. destruct (String.eqb k' k0) eqn:Hk0.
  - apply String.eqb_eq in Hk0. subst k0.
    apply String.eqb_neq in Hne. now rewrite Hne.
  - simpl. now rewrite IH.
Qed.

(** X14. The listing reads a stored document only through its [_id] and the
    declared fields: two documents that agree on those are listed alike, so
    keys the store adds besides (timestamps, say) neither show nor make the
    listing fail. *)
Theorem stray_stored_keys_are_ignored {P : Pydantic} (d d' : dict) :
  get "_id" d' = get "_id" d ->
  (forall k, In k Offer_fields -> get k d' = get k d) ->
  public_of_document d' = public_of_document d.
Proof.
  intros Hid Hfields. unfold public_of_document, pop. rewrite Hid.
  destruct (get "_id" d) as [i|]; [|reflexivity].
  destruct (str_value i) as [s| |]; simpl; try reflexivity.
  unfold OfferPublic_validate.
  assert (Hv : Offer_validate (setitem "id" (VStr s) (remove "_id" d'))
               = Offer_validate (setitem "id" (VStr s) (remove "_id" d))).
  { apply Offer_validate_ext. intros k Hk.
    assert (Hne : k <> "id" /\ k <> "_id").
    { simpl in Hk. split; intros ->;
        repeat (destruct Hk as [Hk|Hk]; [discriminate Hk|]); exact Hk. }
    destruct Hne as [Hne1 Hne2].
    rewrite !get_setitem_other by exact Hne1.
    rewrite !get_remove_other by exact Hne2. now apply Hfields. }
  rewrite Hv. unfold optional. now rewrite !get_setitem_same.
Qed.

Lemma stray_stored_keys_are_ignored_witness :
  get "_id" (setitem "created_at" (VStr "2024-01-01") unrated_record)
  = get "_id" unrated_record
  /\ (forall k, In k Offer_fields ->
        get k (setitem "created_at" (VStr "2024-01-01") unrated_record)
        = get k unrated_record)
  /\ public_of_document (setitem "created_at" (VStr "2024-01-01") unrated_record)
     = public_of_document unrated_record.
Proof.
  assert (H : forall k, In k Offer_fields ->
                get k (setitem "created_at" (VStr "2024-01-01") unrated_record)
                = get k unrated_record).
  { intros k Hk. simpl in Hk.
    repeat (destruct Hk as [<-|Hk]; [reflexivity|]). destruct Hk. }
  split; [reflexivity|]. split; [exact H|].
  exact (stray_stored_keys_are_ignored unrated_record
           (setitem "created_at" (VStr "2024-01-01") unrated_record) eq_refl H).
Defined.

Lemma bad_pattern_refused {E : Pcre} (q : string) (max_apr : option float)
  (min_amount max_amount : option Z) (min_rating : option float) :
  q <> "" ->
  regex_valid q "i" = false ->
  exists filter_dict,
    build_filter (Some q) max_apr min_amount max_amount min_rating = Ok filter_dict
    /\ check_query (VDict filter_dict)
       = Raise (Exception "Regular expression is invalid").
Proof.
  intros Hne Hbad. apply String.eqb_neq in Hne.
  destruct max_apr, min_amount, max_amount, min_rating;
    unfold build_filter; cbn; rewrite Hne; cbn; eexists;
    (split; [reflexivity|]); cbn; rewrite Hbad; reflexivity.
Qed.

(** X15. The search string goes to the store as a pattern, unescaped: on a
    reachable store a non-empty [q] that does not compile as a regular
    expression makes the store refuse the query, and as [list_offers]
    catches nothing the request is answered with the plain 500 of an
    unhandled exception, not with a client error. *)
Theorem uncompilable_pattern_is_a_server_error {P : Pydantic} {E : Pcre}
  (q : string) (max_apr : option float) (min_amount max_amount : option Z)
  (min_rating : option float) (w : World) (D : Database) :
  reachable w D ->
  q <> "" ->
  regex_valid q "i" = false ->
  query_errors max_apr min_amount max_amount min_rating = [] ->
  get_api_offers (Some q) max_apr min_amount max_amount min_rating w
  = (Some (server_error "Internal Server Error"), w).
Proof.
  intros [Hdb Hf] Hne Hbad Hq. destruct w as [handle env]. simpl in Hdb.
  subst handle. unfold get_api_offers. rewrite Hq.
  destruct (bad_pattern_refused q max_apr min_amount max_amount min_rating
              Hne Hbad) as (fd & Hb & Hc).
  unfold serve, list_offers, bind at 1, gets. cbn [db].
  unfold bind at 1, lift at 1. rewrite Hb.
  unfold bind at 1, get_documents, on_db, find, call. cbn [db environ].
  rewrite Hf, Hc. reflexivity.
Qed.

Lemma uncompilable_pattern_is_a_server_error_witness :
  reachable seeded_world seeded_database
  /\ "(" <> ""
  /\ regex_valid "(" "i" = false
  /\ query_errors None None None None = []
  /\ get_api_offers (Some "(") None None None None seeded_world
     = (Some (server_error "Internal Server Error"), seeded_world).
Proof.
  assert (Hr : reachable seeded_world seeded_database) by (split; reflexivity).
  assert (Hne : "(" <> "") by discriminate.
  split; [exact Hr|]. split; [exact Hne|]. split; [reflexivity|].
  split; [reflexivity|].
  exact (uncompilable_pattern_is_a_server_error "(" None None None None
           seeded_world seeded_database Hr Hne eq_refl eq_refl).
Defined.

(** X16. After seeding a reachable store whose [offer] collection is empty,
    the unfiltered listing is answered 200 with the four samples in the order
    of [sample], under consecutive identifiers: the samples, which are stored
    without validation, all pass it when they are read back (for a URL
    validator that accepts their links). *)
Theorem seeded_store_can_be_listed {P : Pydantic} {E : Pcre}
  (w : World) (D : Database) :
  reachable w D ->
  offers D = [] ->
  links_accepted [offer_fast; offer_reliable; offer_zaimer; offer_rublgo] = true ->
  exists w' found,
    post_api_offers_seed w
    = (Some (Response 200 [("status", VStr "ok"); ("inserted", VInt 4)]), w')
    /\ list_everything w' = (Some (Response 200 found), w')
    /\ map (fun p => name (offer p)) found
       = ["Быстрые Деньги"; "Надёжный Займ"; "Займер"; "РубльGo"]
    /\ map id found
       = map (fun i => Some (str_of_oid i))
             [next_id D; N.succ (next_id D); N.succ (N.succ (next_id D));
              N.succ (N.succ (N.succ (next_id D)))].
Proof.
  intros [Hdb Hf] Hempty Hlinks. destruct w as [handle env]. simpl in Hdb.
  subst handle. unfold offers in Hempty.
  unfold links_accepted in Hlinks. cbn [forallb] in Hlinks.
  destruct (reread_link offer_fast) as [l0|] eqn:Hl0; [|discriminate].
  destruct (reread_link offer_reliable) as [l1|] eqn:Hl1; [|discriminate].
  destruct (reread_link offer_zaimer) as [l2|] eqn:Hl2; [|discriminate].
  destruct (reread_link offer_rublgo) as [l3|] eqn:Hl3; [|discriminate].
  set (D' := fold_left (fun D' s => store_document "offer" s D') sample D).
  exists {| db := Some D'; environ := env |}.
  eexists. split.
  - unfold post_api_offers_seed, serve.
    now rewrite (seed_offers_empty D env Hf Hempty).
  - unfold list_everything, get_api_offers. cbn [query_errors param app].
    unfold serve. rewrite list_everything_healthy
      by (unfold D'; rewrite fault_store_all; exact Hf).
    unfold offers, D'. rewrite documents_store_all, Hempty. cbn [app].
    change (stamped_from (next_id D) sample)
      with [stamp (next_id D) (model_dump offer_fast);
            stamp (N.succ (next_id D)) (model_dump offer_reliable);
            stamp (N.succ (N.succ (next_id D))) (model_dump offer_zaimer);
            stamp (N.succ (N.succ (N.succ (next_id D)))) (model_dump offer_rublgo)].
    unfold publish. cbn [collect].
    rewrite (public_of_stamped_dump _ offer_fast l0 eq_refl Hl0).
    rewrite (public_of_stamped_dump _ offer_reliable l1 eq_refl Hl1).
    rewrite (public_of_stamped_dump _ offer_zaimer l2 eq_refl Hl2).
    rewrite (public_of_stamped_dump _ offer_rublgo l3 eq_refl Hl3).
    cbn [obind]. split; [reflexivity|]. split; reflexivity.
Qed.

Lemma seeded_store_can_be_listed_witness :
  reachable fresh_world empty_database
  /\ offers empty_database = []
  /\ links_accepted [offer_fast; offer_reliable; offer_zaimer; offer_rublgo] = true
  /\ exists w' found,
       post_api_offers_seed fresh_world
       = (Some (Response 200 [("status", VStr "ok"); ("inserted", VInt 4)]), w')
       /\ list_everything w' = (Some (Response 200 found), w')
       /\ map (fun p => name (offer p)) found
          = ["Быстрые Деньги"; "Надёжный Займ"; "Займер"; "РубльGo"]
       /\ map id found
          = map (fun i => Some (str_of_oid i))
                [next_id empty_database; N.succ (next_id empty_database);
                 N.succ (N.succ (next_id empty_database));
                 N.succ (N.succ (N.succ (next_id empty_database)))].
Proof.
  assert (Hr : reachable fresh_world empty_database) by (split; reflexivity).
  split; [exact Hr|]. split; [reflexivity|]. split; [reflexivity|].
  exact (seeded_store_can_be_listed fresh_world empty_database Hr eq_refl eq_refl).
Defined.

(** ** Writes stay in the [offer] collection *)

Lemma documents_append_other (coll c : string) (doc : dict)
  (cs : list (string * list dict)) :
  coll <> c -> documents coll (append_document c doc cs) = documents coll cs.
Proof.
  intros Hne. induction cs as [|[c0 docs] cs IH]; simpl.
  - apply String.eqb_neq in Hne. now rewrite Hne.
  - destruct (String.eqb c c0) eqn:Hc0; simpl.
    + apply String.eqb_eq in Hc0. subst c0.
      apply String.eqb_neq in Hne. now rewrite Hne.
    + now rewrite IH.
Qed.

Lemma documents_store_other (coll c : string) (l : list dict) (D : Database) :
  coll <> c ->
  documents coll (collections (fold_left (fun D' s => store_document c s D') l D))
  = documents coll (collections D).
Proof.
  intros Hne. revert D. induction l as [|s l IH]; intros D; [reflexivity|].
  simpl. rewrite IH. now apply documents_append_other.
Qed.

(** X17. On a reachable store neither a create request (whatever its body)
    nor seeding (whatever the [offer] collection holds) changes the
    documents of any collection other than [offer]. *)
Theorem writes_touch_only_the_offer_collection {P : Pydantic} {E : Pcre}
  (coll : string) (d : dict) (w : World) (D : Database) :
  reachable w D ->
  coll <> "offer" ->
  (exists D1,
     db (snd (post_api_offers (VDict d) w)) = Some D1
     /\ documents coll (collections D1) = documents coll (collections D))
  /\
  (exists D2,
     db (snd (post_api_offers_seed w)) = Some D2
     /\ documents coll (collections D2) = documents coll (collections D)).
Proof.
  intros [Hdb Hf] Hne. destruct w as [handle env]. simpl in Hdb. subst handle.
  split.
  - destruct (Offer_validate d) as [errs|payload] eqn:Hv.
    + exists D. unfold post_api_offers. rewrite Hv. split; reflexivity.
    + rewrite (post_api_offers_accepted d payload D env Hf Hv).
      eexists. split; [reflexivity|].
      now apply documents_append_other.
  - unfold post_api_offers_seed, serve.
    destruct (documents "offer" (collections D)) as [|d0 l] eqn:Hoffers.
    + rewrite (seed_offers_empty D env Hf Hoffers).
      eexists. split; [reflexivity|]. now apply documents_store_other.
    + rewrite (seed_offers_nonempty D env Hf)
        by (rewrite Hoffers; discriminate).
      exists D. split; reflexivity.
Qed.

Lemma writes_touch_only_the_offer_collection_witness :
  reachable fresh_world empty_database
  /\ "user" <> "offer"
  /\ (exists D1,
        db (snd (post_api_offers (VDict plain_body) fresh_world)) = Some D1
        /\ documents "user" (collections D1)
           = documents "user" (collections empty_database))
  /\ (exists D2,
        db (snd (post_api_offers_seed fresh_world)) = Some D2
        /\ documents "user" (collections D2)
           = documents "user" (collections empty_database)).
Proof.
  assert (Hr : reachable fresh_world empty_database) by (split; reflexivity).
  assert (Hne : "user" <> "offer") by discriminate.
  split; [exact Hr|]. split; [exact Hne|].
  exact (writes_touch_only_the_offer_collection "user" plain_body fresh_world
           empty_database Hr Hne).
Defined.

(** ** More on the diagnostic endpoint *)

(** X18. The status object always has the same six keys.  Its
    [database_url] and [database_name] tell only whether the environment
    variables [DATABASE_URL] and [DATABASE_NAME] are set and not empty: what
    the handler wrote there before, the name of the database included, is
    overwritten.  [connection_status] says "Connected" whenever a handle is
    set, also when the store behind it fails. *)
Theorem diagnostic_reports_the_environment {P : Pydantic} {E : Pcre} (w : World) :
  exists response,
    test_database w = (Ok response, w)
    /\ keys response = status_keys
    /\ get "backend" response = Some (VStr "✅ Running")
    /\ get "database_url" response
       = Some (VStr (set_or_not (getenv_truthy "DATABASE_URL" w)))
    /\ get "database_name" response
       = Some (VStr (set_or_not (getenv_truthy "DATABASE_NAME" w)))
    /\ get "connection_status" response
       = Some (VStr match db w with
                    | Some _ => "Connected"
                    | None => "Not Connected"
                    end).
Proof.
  destruct w as [[[nm [[msg|n msg]|] cs nid]|] env];
    eexists; (split; [reflexivity|]); repeat split; reflexivity.
Qed.

(** X19. On a reachable store the status object lists the names of the
    collections in the store's order, all of them when there are at most
    ten and the first ten otherwise. *)
Theorem diagnostic_lists_the_first_ten_collections {P : Pydantic} {E : Pcre}
  (w : World) (D : Database) :
  reachable w D ->
  exists response,
    test_database w = (Ok response, w)
    /\ get "collections" response
       = Some (VList (map VStr (firstn 10 (map fst (collections D)))))
    /\ ((List.length (collections D) <= 10)%nat ->
        get "collections" response
        = Some (VList (map VStr (map fst (collections D))))).
Proof.
  intros [Hdb Hf]. destruct w as [handle env]. simpl in Hdb. subst handle.
  destruct D as [nm ft cs nid]. simpl in Hf. subst ft.
  eexists. split; [reflexivity|]. split; [reflexivity|].
  intros Hlen. cbn [collections] in Hlen.
  transitivity (Some (VList (map VStr (firstn 10 (map fst cs)))));
    [reflexivity|].
  rewrite firstn_all2 by (rewrite length_map; exact Hlen). reflexivity.
Qed.

Lemma diagnostic_lists_the_first_ten_collections_witness :
  reachable seeded_world seeded_database
  /\ exists response,
       test_database seeded_world = (Ok response, seeded_world)
       /\ get "collections" response
          = Some (VList (map VStr (firstn 10 (map fst (collections seeded_database)))))
       /\ ((List.length (collections seeded_database) <= 10)%nat ->
           get "collections" response
           = Some (VList (map VStr (map fst (collections seeded_database))))).
Proof.
  assert (Hr : reachable seeded_world seeded_database) by (split; reflexivity).
  split; [exact Hr|].
  exact (diagnostic_lists_the_first_ten_collections seeded_world seeded_database Hr).
Defined.

Lemma slice_to_prefix (n : nat) (s : string) :
  exists rest, s = slice_to n s ++ rest.
Proof.
  revert n. induction s as [|c s IH]; intros n; [now exists ""|].
  simpl. destruct (is_continuation c).
  - destruct (IH n) as [rest Hr]. exists rest. simpl. now rewrite <- Hr.
  - destruct n as [|n]; [now exists (String c s)|].
    destruct (IH n) as [rest Hr]. exists rest. simpl. now rewrite <- Hr.
Qed.

Lemma slice_to_code_points (n : nat) (s : string) :
  (code_points (slice_to n s) <= n)%nat.
Proof.
  revert n. induction s as [|c s IH]; intros n; simpl; [lia|].
  destruct (is_continuation c) eqn:Hc; simpl.
  - rewrite Hc. apply IH.
  - destruct n as [|n]; simpl; [lia|]. rewrite Hc. specialize (IH n). lia.
Qed.

Lemma slice_to_short (n : nat) (s : string) :
  (code_points s <= n)%nat -> slice_to n s = s.
Proof.
  revert n. induction s as [|c s IH]; intros n; simpl; [reflexivity|].
  destruct (is_continuation c); intros H.
  - now rewrite IH.
  - destruct n as [|n]; [lia|]. rewrite IH by lia. reflexivity.
Qed.

(** X20. When the store fails with a message, the status object shows under
    [database] the text "Connected but Error: " followed by the beginning of
    that message: at most 50 characters of it, and all of it when it is no
    longer than that; [collections] stays empty. *)
Theorem diagnostic_truncates_the_error_text {P : Pydantic} {E : Pcre}
  (w : World) (D : Database) (msg : string) :
  db w = Some D ->
  fault D = Some (Unreachable msg) ->
  exists response shown rest,
    test_database w = (Ok response, w)
    /\ get "database" response
       = Some (VStr ("⚠️  Connected but Error: " ++ shown))
    /\ msg = shown ++ rest
    /\ (code_points shown <= 50)%nat
    /\ ((code_points msg <= 50)%nat -> shown = msg)
    /\ get "collections" response = Some (VList []).
Proof.
  intros Hdb Hf. destruct w as [handle env]. simpl in Hdb. subst handle.
  destruct D as [nm ft cs nid]. simpl in Hf. subst ft.
  destruct (slice_to_prefix 50 msg) as [rest Hrest].
  eexists. exists (slice_to 50 msg), rest.
  split; [reflexivity|]. split; [reflexivity|]. split; [exact Hrest|].
  split; [apply slice_to_code_points|].
  split; [apply slice_to_short|reflexivity].
Qed.

Lemma diagnostic_truncates_the_error_text_witness :
  db failing_world = Some failing_database
  /\ fault failing_database = Some (Unreachable "connection refused")
  /\ exists response shown rest,
       test_database failing_world = (Ok response, failing_world)
       /\ get "database" response
          = Some (VStr ("⚠️  Connected but Error: " ++ shown))
       /\ "connection refused" = shown ++ rest
       /\ (code_points shown <= 50)%nat
       /\ ((code_points "connection refused" <= 50)%nat
           -> shown = "connection refused")
       /\ get "collections" response = Some (VList []).
Proof.
  split; [reflexivity|]. split; [reflexivity|].
  exact (diagnostic_truncates_the_error_text failing_world failing_database
           "connection refused" eq_refl eq_refl).
Defined.

(** ** The example schemas *)

Section Examples.
Context {P : Pydantic} {B : PydanticBool}.
Import ExampleSchemas.

Lemma optional_int_sound (k : string) (lo hi : Z) (d : dict) (o : option Z) :
  optional k (int_field (Some lo) (Some hi)) d = inr o ->
  match o with
  | Some z => lo <= z <= hi
  | None => True
  end.
Proof.
  unfold optional, int_field.
  assert (Hv : forall v,
            at_field k
              match match int_validator v with
                    | Some z => check_int (Some lo) (Some hi) z
                    | None => inl WrongType
                    end with
              | inl e => inl e
              | inr a => inr (Some a)
              end = inr o ->
            match o with Some z => lo <= z <= hi | None => True end).
  { intros v. destruct (int_validator v) as [z0|]; [|discriminate].
    destruct (check_int (Some lo) (Some hi) z0) as [e|z1] eqn:Hc; simpl;
      [discriminate|].
    intros H. injection H as <-.
    now destruct (check_int_range lo hi z0 z1 Hc) as [-> Hw]. }
  destruct (get k d) as [v|]; [|intros H; injection H as <-; exact I].
  destruct v; try apply Hv. intros H. injection H as <-. exact I.
Qed.

Lemma defaulted_absent {A} (k : string) (f : field_validator A) (dflt a : A)
  (d : dict) :
  get k d = None -> defaulted k f dflt d = inr a -> a = dflt.
Proof.
  intros Hg. unfold defaulted. rewrite Hg. intros H. now injection H.
Qed.

Lemma optional_absent {A} (k : string) (f : field_validator A) (o : option A)
  (d : dict) :
  get k d = None -> optional k f d = inr o -> o = None.
Proof.
  intros Hg. unfold optional. rewrite Hg. intros H. now injection H.
Qed.

(** X21. A body with the three strings [name], [email] and [address] and
    nothing else is a valid [User], whatever the strings are (the form of
    the email address is not checked); [age] is then unset and [is_active]
    true. *)
Theorem user_needs_only_three_strings (n e a : string) :
  UserModel.User_validate
    [("name", VStr n); ("email", VStr e); ("address", VStr a)]
  = inr {| UserModel.name := n; UserModel.email := e; UserModel.address := a;
           UserModel.age := None; UserModel.is_active := true |}.
Proof.
  unfold UserModel.User_validate, required, optional, defaulted.
  cbn [get String.eqb Ascii.eqb Bool.eqb].
  unfold str_field. rewrite !str_validator_str. reflexivity.
Qed.

(** X22. A body passes [User] validation only with an [age] that is unset or
    within 0-120; an absent [age] stays unset and an absent [is_active]
    becomes true. *)
Theorem accepted_user_is_within_bounds (d : dict) (u : UserModel.User) :
  UserModel.User_validate d = inr u ->
  match UserModel.age u with
  | Some z => 0 <= z <= 120
  | None => True
  end
  /\ (get "age" d = None -> UserModel.age u = None)
  /\ (get "is_active" d = None -> UserModel.is_active u = true).
Proof.
  unfold UserModel.User_validate. intros H.
  apply ap_inr in H as (g4 & active & H & Hactive & ->).
  apply ap_inr in H as (g3 & years & H & Hage & ->).
  apply ap_inr in H as (g2 & addr & H & _ & ->).
  apply ap_inr in H as (g1 & mail & H & _ & ->).
  apply ap_inr in H as (g0 & nm & H & _ & ->).
  injection H as <-. cbn [UserModel.age UserModel.is_active].
  split; [exact (optional_int_sound "age" 0 120 d years Hage)|]. split.
  - intros Hg. exact (optional_absent _ _ _ _ Hg Hage).
  - intros Hg. exact (defaulted_absent _ _ _ _ _ Hg Hactive).
Qed.

(** X23. A body passes [Product] validation only with a [price] that is at
    least 0 (so not NaN either); an absent [description] stays unset and an
    absent [in_stock] becomes true. *)
Theorem accepted_product_is_within_bounds (d : dict) (p : ProductModel.Product) :
  ProductModel.Product_validate d = inr p ->
  PrimFloat.leb 0%float (ProductModel.price p) = true
  /\ (get "description" d = None -> ProductModel.description p = None)
  /\ (get "in_stock" d = None -> ProductModel.in_stock p = true).
Proof.
  unfold ProductModel.Product_validate. intros H.
  apply ap_inr in H as (g4 & stock & H & Hstock & ->).
  apply ap_inr in H as (g3 & cat & H & _ & ->).
  apply ap_inr in H as (g2 & cost & H & Hprice & ->).
  apply ap_inr in H as (g1 & descr & H & Hdescr & ->).
  apply ap_inr in H as (g0 & ttl & H & _ & ->).
  injection H as <-. cbn [ProductModel.price ProductModel.description
                          ProductModel.in_stock].
  split; [exact (required_float_sound "price" 0%float d cost Hprice)|]. split.
  - intros Hg. exact (optional_absent _ _ _ _ Hg Hdescr).
  - intros Hg. exact (defaulted_absent _ _ _ _ _ Hg Hstock).
Qed.

End Examples.

Lemma accepted_user_is_within_bounds_witness :
  ExampleSchemas.UserModel.User_validate
    [("name", VStr "Ann"); ("email", VStr "ann"); ("address", VStr "Home");
     ("age", VInt 30)]
  = inr {| ExampleSchemas.UserModel.name := "Ann";
           ExampleSchemas.UserModel.email := "ann";
           ExampleSchemas.UserModel.address := "Home";
           ExampleSchemas.UserModel.age := Some 30;
           ExampleSchemas.UserModel.is_active := true |}
  /\ 0 <= 30 <= 120.
Proof.
  split; [reflexivity|].
  exact (proj1 (accepted_user_is_within_bounds
                  [("name", VStr "Ann"); ("email", VStr "ann");
                   ("address", VStr "Home"); ("age", VInt 30)] _ eq_refl)).
Defined.

Lemma accepted_product_is_within_bounds_witness :
  ExampleSchemas.ProductModel.Product_validate
    [("title", VStr "Tea"); ("price", VFloat 2.5%float); ("category", VStr "food")]
  = inr {| ExampleSchemas.ProductModel.title := "Tea";
           ExampleSchemas.ProductModel.description := None;
           ExampleSchemas.ProductModel.price := 2.5%float;
           ExampleSchemas.ProductModel.category := "food";
           ExampleSchemas.ProductModel.in_stock := true |}
  /\ PrimFloat.leb 0%float 2.5%float = true.
Proof.
  split; [reflexivity|].
  exact (proj1 (accepted_product_is_within_bounds
                  [("title", VStr "Tea"); ("price", VFloat 2.5%float);
                   ("category", VStr "food")] _ eq_refl)).
Defined.

(** * Listing and creation, end to end *)

(** ** The filter *)

Lemma build_filter_described (q : option string) (max_apr : option float)
  (min_amount max_amount : option Z) (min_rating : option float) :
  build_filter q max_apr min_amount max_amount min_rating
  = Ok (described_filter q max_apr min_amount max_amount min_rating).
Proof.
  destruct q as [s|]; [destruct (String.eqb s "") eqn:Hs|];
    destruct max_apr, min_amount, max_amount, min_rating;
    unfold build_filter, described_filter, text_condition; cbn;
    rewrite ?Hs; cbn; reflexivity.
Qed.

Lemma selects_meets {E : Pcre} (q : option string) (max_apr : option float)
  (min_amount max_amount : option Z) (min_rating : option float) (doc : dict) :
  selects q max_apr min_amount max_amount min_rating doc
  = meets "apr" "$lte" (option_map VFloat max_apr) doc
    && meets "max_amount" "$gte" (option_map VInt min_amount) doc
    && meets "min_amount" "$lte" (option_map VInt max_amount) doc
    && meets "rating" "$gte" (option_map VFloat min_rating) doc
    && meets_text q doc.
Proof.
  unfold selects. rewrite build_filter_described.
  destruct q as [s|]; [destruct (String.eqb s "") eqn:Hs|];
    destruct max_apr, min_amount, max_amount, min_rating;
    unfold described_filter, text_condition, meets, meets_text,
      name_clause, tags_clause;
    rewrite ?Hs; cbn -[eval_field];
    rewrite ?andb_true_r, ?orb_false_r, ?andb_assoc; reflexivity.
Qed.

(** C2. Whatever parameters are supplied, the filter [list_offers] builds is
    the one the specification describes: one condition per supplied range
    parameter ([max_apr] on [apr], [min_amount] on [max_amount], [max_amount]
    on [min_amount], [min_rating] on [rating]) and the [$or] clause of a
    non-empty [q], and nothing else.  It selects a record exactly when the
    record meets the condition of every supplied range parameter and, for a
    non-empty [q], the name clause or the tag clause; equally, when each
    supplied parameter, taken alone, selects it.  The filter of no parameter
    is empty and selects every record. *)
Theorem filter_combines_constraints {E : Pcre}
  (q : option string) (max_apr : option float) (min_amount max_amount : option Z)
  (min_rating : option float) (doc : dict) :
  build_filter q max_apr min_amount max_amount min_rating
  = Ok (described_filter q max_apr min_amount max_amount min_rating)
  /\ selects q max_apr min_amount max_amount min_rating doc
     = meets "apr" "$lte" (option_map VFloat max_apr) doc
       && meets "max_amount" "$gte" (option_map VInt min_amount) doc
       && meets "min_amount" "$lte" (option_map VInt max_amount) doc
       && meets "rating" "$gte" (option_map VFloat min_rating) doc
       && meets_text q doc
  /\ selects q max_apr min_amount max_amount min_rating doc
     = selects None max_apr None None None doc
       && selects None None min_amount None None doc
       && selects None None None max_amount None doc
       && selects None None None None min_rating doc
       && selects q None None None None doc
  /\ selects q None None None None doc
     = match q with
       | Some s =>
           if String.eqb s "" then true
           else name_clause s doc || tags_clause s doc
       | None => true
       end
  /\ build_filter None None None None None = Ok []
  /\ selects None None None None None doc = true.
Proof.
  split; [apply build_filter_described|].
  split; [apply selects_meets|].
  split; [|split; [|split; reflexivity]].
  - rewrite !selects_meets. cbn [option_map meets meets_text].
    rewrite ?andb_true_r. reflexivity.
  - rewrite selects_meets. reflexivity.
Qed.

(** ** Amount filters *)

Lemma Forall_filter {A} (Q : A -> Prop) (f : A -> bool) (l : list A) :
  Forall Q l -> Forall Q (filter f l).
Proof.
  intros H. rewrite Forall_forall in *. intros a Ha.
  apply filter_In in Ha as [Ha _]. now apply H.
Qed.

Lemma filter_stored_min_amount {E : Pcre} (v : Z) (rs : list (ObjectId * Offer)) :
  filter (selects None None (Some v) None None) (map stored_form rs)
  = map stored_form (filter (fun r => v <=? max_amount (snd r)) rs).
Proof.
  induction rs as [|[i o] rs IH]; [reflexivity|].
  cbn [map filter snd].
  rewrite (selects_min_amount v (max_amount o) (stored_form (i, o)) eq_refl), IH.
  now destruct (v <=? max_amount o).
Qed.

Lemma filter_stored_max_amount {E : Pcre} (v : Z) (rs : list (ObjectId * Offer)) :
  filter (selects None None None (Some v) None) (map stored_form rs)
  = map stored_form (filter (fun r => min_amount (snd r) <=? v) rs).
Proof.
  induction rs as [|[i o] rs IH]; [reflexivity|].
  cbn [map filter snd].
  rewrite (selects_max_amount v (min_amount o) (stored_form (i, o)) eq_refl), IH.
  now destruct (min_amount o <=? v).
Qed.

(** A listing of well-formed records answers 200 with the public form of
    those the filter keeps. *)
Lemma listing_of_stored_models {P : Pydantic} {E : Pcre}
  (q : option string) (max_apr : option float) (min_amount max_amount : option Z)
  (min_rating : option float) (D : Database) (env : dict)
  (kept : list (ObjectId * Offer)) :
  fault D = None ->
  query_errors max_apr min_amount max_amount min_rating = [] ->
  check_query (VDict (described_filter q max_apr min_amount max_amount min_rating))
  = Ok tt ->
  filter (selects q max_apr min_amount max_amount min_rating) (offers D)
  = map stored_form kept ->
  Forall well_formed_record kept ->
  get_api_offers q max_apr min_amount max_amount min_rating
                 {| db := Some D; environ := env |}
  = (Some (Response 200 (map public_form kept)),
     {| db := Some D; environ := env |}).
Proof.
  intros Hf Hq Hc Hkept Hwf. unfold get_api_offers. rewrite Hq. unfold serve.
  rewrite (list_offers_healthy q max_apr min_amount max_amount min_rating _ D env
             Hf (build_filter_described _ _ _ _ _) Hc).
  unfold offers in Hkept. rewrite Hkept.
  rewrite (publish_stored_models kept); [reflexivity|].
  apply (Forall_impl _ (P := well_formed_record)); [|exact Hwf].
  intros r (Hok & _ & Hlink). now split.
Qed.

Lemma collect_pairs {A B} (f : A -> outcome B) (l : list A) (bs : list B) :
  collect f l = Ok bs -> Forall2 (fun a b => f a = Ok b) l bs.
Proof.
  revert bs. induction l as [|a l IH]; simpl; intros bs H.
  - injection H as <-. constructor.
  - destruct (f a) as [b| |] eqn:Hf; simpl in H; try discriminate.
    destruct (collect f l) as [bs'| |]; simpl in H; try discriminate.
    injection H as <-. constructor; [exact Hf|]. now apply IH.
Qed.

(** A listing that is answered 200 answers with the public forms of the
    records the filter selects, one for one and in stored order. *)
Lemma listing_answered {P : Pydantic} {E : Pcre}
  (q : option string) (max_apr : option float) (min_amount max_amount : option Z)
  (min_rating : option float) (D : Database) (env : dict)
  (found : list OfferPublic) (w' : World) :
  fault D = None ->
  check_query (VDict (described_filter q max_apr min_amount max_amount min_rating))
  = Ok tt ->
  get_api_offers q max_apr min_amount max_amount min_rating
                 {| db := Some D; environ := env |}
  = (Some (Response 200 found), w') ->
  w' = {| db := Some D; environ := env |}
  /\ Forall2 (fun r p => public_of_document r = Ok p)
       (filter (selects q max_apr min_amount max_amount min_rating) (offers D))
       found.
Proof.
  intros Hf Hc. unfold get_api_offers.
  destruct (query_errors max_apr min_amount max_amount min_rating);
    [|discriminate].
  unfold serve.
  rewrite (list_offers_healthy q max_apr min_amount max_amount min_rating _ D env
             Hf (build_filter_described _ _ _ _ _) Hc).
  unfold publish, offers.
  destruct (collect public_of_document _) as [ps|e|] eqn:Hp;
    [|destruct e; discriminate|discriminate].
  intros H. injection H as <- <-. split; [reflexivity|].
  now apply collect_pairs.
Qed.

(** C3. On a reachable store, take the listing with only [min_amount = v].
    When the stored records are well-formed offers, the answer is the 200
    with exactly those whose [max_amount] is at least [v], in stored order: a
    stored record appears in the answer if and only if its [max_amount] is at
    least [v].  Whatever the store holds, an answer of 200 consists of the
    public forms, one for one, of the selected records, and a record with an
    integer [max_amount] is selected if and only if it is stored and that
    amount is at least [v].  The same holds of the listing with only
    [max_amount = v] and the records whose [min_amount] is at most [v]. *)
Theorem amount_filters_test_opposite_field {P : Pydantic} {E : Pcre}
  (v : Z) (w : World) (D : Database) :
  db w = Some D ->
  fault D = None ->
  0 <= v ->
  (forall rs,
     offers D = map stored_form rs ->
     Forall well_formed_record rs ->
     (exists kept,
        get_api_offers None None (Some v) None None w
        = (Some (Response 200 (map public_form kept)), w)
        /\ kept = filter (fun r => v <=? max_amount (snd r)) rs
        /\ forall r, In r kept <-> In r rs /\ v <= max_amount (snd r))
     /\
     (exists kept,
        get_api_offers None None None (Some v) None w
        = (Some (Response 200 (map public_form kept)), w)
        /\ kept = filter (fun r => min_amount (snd r) <=? v) rs
        /\ forall r, In r kept <-> In r rs /\ min_amount (snd r) <= v))
  /\
  (forall found w',
     get_api_offers None None (Some v) None None w
     = (Some (Response 200 found), w') ->
     w' = w
     /\ exists selected,
          Forall2 (fun r p => public_of_document r = Ok p) selected found
          /\ forall r m, get "max_amount" r = Some (VInt m) ->
               (In r selected <-> In r (offers D) /\ v <= m))
  /\
  (forall found w',
     get_api_offers None None None (Some v) None w
     = (Some (Response 200 found), w') ->
     w' = w
     /\ exists selected,
          Forall2 (fun r p => public_of_document r = Ok p) selected found
          /\ forall r m, get "min_amount" r = Some (VInt m) ->
               (In r selected <-> In r (offers D) /\ m <= v)).
Proof.
  intros Hdb Hf Hv. destruct w as [handle env]. simpl in Hdb. subst handle.
  assert (Hb : (0 <=? v) = true) by now apply Z.leb_le.
  split; [|split].
  - intros rs Hrs Hwf. split.
    + exists (filter (fun r => v <=? max_amount (snd r)) rs).
      split; [|split; [reflexivity|]].
      * apply listing_of_stored_models.
        -- exact Hf.
        -- unfold query_errors, param, check_int. simpl. now rewrite Hb.
        -- reflexivity.
        -- rewrite Hrs. apply filter_stored_min_amount.
        -- now apply Forall_filter.
      * intros r. now rewrite filter_In, Z.leb_le.
    + exists (filter (fun r => min_amount (snd r) <=? v) rs).
      split; [|split; [reflexivity|]].
      * apply listing_of_stored_models.
        -- exact Hf.
        -- unfold query_errors, param, check_int. simpl. now rewrite Hb.
        -- reflexivity.
        -- rewrite Hrs. apply filter_stored_max_amount.
        -- now apply Forall_filter.
      * intros r. now rewrite filter_In, Z.leb_le.
  - intros found w' Hrun.
    destruct (listing_answered None None (Some v) None None D env found w' Hf
                eq_refl Hrun) as [Hw Hall].
    split; [exact Hw|]. eexists. split; [exact Hall|].
    intros r m Hm.
    now rewrite filter_In, (selects_min_amount v m r Hm), Z.leb_le.
  - intros found w' Hrun.
    destruct (listing_answered None None None (Some v) None D env found w' Hf
                eq_refl Hrun) as [Hw Hall].
    split; [exact Hw|]. eexists. split; [exact Hall|].
    intros r m Hm.
    now rewrite filter_In, (selects_max_amount v m r Hm), Z.leb_le.
Qed.

Lemma amount_filters_test_opposite_field_witness :
  db seeded_world = Some seeded_database
  /\ fault seeded_database = None
  /\ 0 <= 60000
  /\ offers seeded_database
     = map stored_form [(0%N, offer_fast); (1%N, offer_reliable);
                        (2%N, offer_zaimer); (3%N, offer_rublgo)]
  /\ (exists kept,
        get_api_offers None None (Some 60000) None None seeded_world
        = (Some (Response 200 (map public_form kept)), seeded_world)
        /\ kept = [(1%N, offer_reliable); (2%N, offer_zaimer)])
  /\ (exists kept,
        get_api_offers None None None (Some 1000) None seeded_world
        = (Some (Response 200 (map public_form kept)), seeded_world)
        /\ kept = [(0%N, offer_fast); (3%N, offer_rublgo)]).
Proof.
  split; [reflexivity|]. split; [reflexivity|]. split; [lia|].
  split; [reflexivity|].
  assert (Hwf : Forall well_formed_record
                  [(0%N, offer_fast); (1%N, offer_reliable);
                   (2%N, offer_zaimer); (3%N, offer_rublgo)]).
  { repeat constructor. }
  assert (Hrs : offers seeded_database
                = map stored_form [(0%N, offer_fast); (1%N, offer_reliable);
                                   (2%N, offer_zaimer); (3%N, offer_rublgo)])
    by reflexivity.
  split.
  - destruct (amount_filters_test_opposite_field 60000 seeded_world seeded_database
                eq_refl eq_refl ltac:(lia)) as [Hall _].
    destruct (Hall _ Hrs Hwf) as [(kept & Hrun & Hkept & _) _].
    exists kept. split; [exact Hrun|]. rewrite Hkept. reflexivity.
  - destruct (amount_filters_test_opposite_field 1000 seeded_world seeded_database
                eq_refl eq_refl ltac:(lia)) as [Hall _].
    destruct (Hall _ Hrs Hwf) as [_ (kept & Hrun & Hkept & _)].
    exists kept. split; [exact Hrun|]. rewrite Hkept. reflexivity.
Defined.

(** ** Bodies the schema refuses *)

Section Refusals.
Context {P : Pydantic}.












End Refusals.




(** ** Bodies with fields the schema does not declare *)

Section Carrying.
Context {P : Pydantic}.

Lemma required_carried {A} (k : string) (f : field_validator A) (d d0 : dict)
  (v : value) :
  get k d0 = Some v -> v <> VNone -> v <> VList [] ->
  get k d = Some v \/ (get k d = None /\ (v = VNone \/ v = VList [])) ->
  required k f d = required k f d0.
Proof.
  intros H0 Hn Hl [Hd|[_ [Hv|Hv]]]; try contradiction.
  unfold required. now rewrite Hd, H0.
Qed.

Lemma optional_carried {A} (k : string) (f : field_validator A) (d d0 : dict)
  (v : value) :
  get k d0 = Some v -> v <> VList [] ->
  get k d = Some v \/ (get k d = None /\ (v = VNone \/ v = VList [])) ->
  optional k f d = optional k f d0.
Proof.
  intros H0 Hl [Hd|[Hd [Hv|Hv]]]; try contradiction.
  - unfold optional. now rewrite Hd, H0.
  - unfold optional. rewrite Hd, H0, Hv. reflexivity.
Qed.

Lemma tags_carried (k : string) (d d0 : dict) (v : value) :
  get k d0 = Some v -> v <> VNone ->
  get k d = Some v \/ (get k d = None /\ (v = VNone \/ v = VList [])) ->
  defaulted k str_list_field [] d = defaulted k str_list_field [] d0.
Proof.
  intros H0 Hn [Hd|[Hd [Hv|Hv]]]; try contradiction.
  - unfold defaulted. now rewrite Hd, H0.
  - unfold defaulted. rewrite Hd, H0, Hv. reflexivity.
Qed.

Lemma dump_opt_no_list {A} (f : A -> value) (o : option A) :
  (forall a, f a <> VList []) -> dump_opt f o <> VList [].
Proof.
  intros Hf. destruct o as [a|]; simpl; [apply Hf|discriminate].
Qed.

(** A body that carries a payload validates as the dump of the payload
    does, whatever else it holds. *)
Lemma carries_validate (d : dict) (payload : Offer) :
  carries d payload ->
  Offer_validate d = Offer_validate (model_dump payload).
Proof.
  intros H. unfold Offer_validate.
  assert (Hfield : forall k, In k Offer_fields ->
            forall v, get k (model_dump payload) = Some v ->
            get k d = Some v \/ (get k d = None /\ (v = VNone \/ v = VList []))).
  { intros k Hk v Hv. destruct (H k Hk) as (v' & Hv' & Hc).
    rewrite Hv in Hv'. now injection Hv' as <-. }
  rewrite (required_carried "name" _ d (model_dump payload) _ eq_refl)
    by first [discriminate | apply Hfield; [simpl; tauto|reflexivity]].
  rewrite (required_carried "apr" _ d (model_dump payload) _ eq_refl)
    by first [discriminate | apply Hfield; [simpl; tauto|reflexivity]].
  rewrite (required_carried "min_amount" _ d (model_dump payload) _ eq_refl)
    by first [discriminate | apply Hfield; [simpl; tauto|reflexivity]].
  rewrite (required_carried "max_amount" _ d (model_dump payload) _ eq_refl)
    by first [discriminate | apply Hfield; [simpl; tauto|reflexivity]].
  rewrite (required_carried "term_min_days" _ d (model_dump payload) _ eq_refl)
    by first [discriminate | apply Hfield; [simpl; tauto|reflexivity]].
  rewrite (required_carried "term_max_days" _ d (model_dump payload) _ eq_refl)
    by first [discriminate | apply Hfield; [simpl; tauto|reflexivity]].
  rewrite (optional_carried "approval_rate" _ d (model_dump payload) _ eq_refl)
    by first [ apply dump_opt_no_list; discriminate
             | apply Hfield; [simpl; tauto|reflexivity] ].
  rewrite (optional_carried "rating" _ d (model_dump payload) _ eq_refl)
    by first [ apply dump_opt_no_list; discriminate
             | apply Hfield; [simpl; tauto|reflexivity] ].
  rewrite (optional_carried "description" _ d (model_dump payload) _ eq_refl)
    by first [ apply dump_opt_no_list; discriminate
             | apply Hfield; [simpl; tauto|reflexivity] ].
  rewrite (optional_carried "link" _ d (model_dump payload) _ eq_refl)
    by first [ apply dump_opt_no_list; discriminate
             | apply Hfield; [simpl; tauto|reflexivity] ].
  rewrite (tags_carried "tags" d (model_dump payload) _ eq_refl)
    by first [discriminate | apply Hfield; [simpl; tauto|reflexivity]].
  reflexivity.
Qed.

Lemma stored_keys (i : ObjectId) (payload : Offer) :
  keys (stamp i (model_dump payload)) = "_id" :: Offer_fields.
Proof. reflexivity. Qed.

Lemma stored_nothing_else (i : ObjectId) (payload : Offer) (k : string) :
  ~ In k ("_id" :: Offer_fields) -> get k (stamp i (model_dump payload)) = None.
Proof.
  intros Hk.
  destruct (get k (stamp i (model_dump payload))) as [v|] eqn:Hg; [|reflexivity].
  exfalso. apply Hk. rewrite <- (stored_keys i payload).
  clear Hk. revert Hg. generalize (stamp i (model_dump payload)).
  intros l. induction l as [|[k' x] l IH]; simpl; [discriminate|].
  destruct (String.eqb_spec k k') as [->|_]; [now left|].
  intros Hg. right. now apply IH.
Qed.

End Carrying.

(** C10. On a reachable store, a create request whose body carries a valid
    payload is accepted whatever else the body holds, an [id] or any other
    field outside the schema: validation yields the payload, the answer is
    the 201 with the identifier of the store, and the record stored is the
    dump of the payload under that identifier, with exactly the declared
    fields and the [_id] of the store, so no [id] and no other field of the
    body.  Validation reads a body through the declared fields only. *)
Theorem unknown_fields_are_dropped {P : Pydantic} {E : Pcre}
  (d : dict) (payload : Offer) (w : World) (D : Database) :
  carries d payload ->
  constraints_ok payload = true ->
  reread_link payload = Some (link payload) ->
  db w = Some D ->
  fault D = None ->
  Offer_validate d = inr payload
  /\ (exists w' D',
        post_api_offers (VDict d) w = (Some (created (next_id D)), w')
        /\ db w' = Some D'
        /\ offers D'
           = (offers D ++ [stamp (next_id D) (model_dump payload)])%list)
  /\ keys (stamp (next_id D) (model_dump payload)) = "_id" :: Offer_fields
  /\ get "id" (stamp (next_id D) (model_dump payload)) = None
  /\ (forall k, ~ In k ("_id" :: Offer_fields) ->
        get k (stamp (next_id D) (model_dump payload)) = None)
  /\ (forall d1 d2, (forall k, In k Offer_fields -> get k d1 = get k d2) ->
        Offer_validate d1 = Offer_validate d2).
Proof.
  intros Hcar Hc Hl Hdb Hf. destruct w as [handle env]. simpl in Hdb. subst handle.
  assert (Hv : Offer_validate d = inr payload).
  { rewrite (carries_validate d payload Hcar).
    rewrite (Offer_validate_model_dump payload (link payload) Hc Hl).
    now rewrite with_link_same. }
  split; [exact Hv|]. split.
  - do 2 eexists. split; [apply (post_api_offers_accepted d payload D env Hf Hv)|].
    split; [reflexivity|]. apply documents_store_document.
  - split; [reflexivity|]. split; [reflexivity|].
    split; [intros k; apply stored_nothing_else|].
    intros d1 d2 H. now apply Offer_validate_ext.
Qed.

Lemma unknown_fields_are_dropped_witness :
  get "id" body_with_id = Some (VStr "abc123")
  /\ carries body_with_id unrated_offer
  /\ db seeded_world = Some seeded_database
  /\ fault seeded_database = None
  /\ Offer_validate body_with_id = inr unrated_offer
  /\ (exists w' D',
        post_api_offers (VDict body_with_id) seeded_world
        = (Some (created (next_id seeded_database)), w')
        /\ db w' = Some D'
        /\ offers D' = (offers seeded_database ++ [unrated_record])%list)
  /\ get "id" unrated_record = None.
Proof.
  assert (H : carries body_with_id unrated_offer).
  { intros k Hk. simpl in Hk.
    repeat (destruct Hk as [<-|Hk];
            [eexists; split; [reflexivity|];
             first [ left; reflexivity
                   | right; split; [reflexivity|];
                     first [left; reflexivity | right; reflexivity] ]|]).
    destruct Hk. }
  split; [reflexivity|]. split; [exact H|].
  split; [reflexivity|]. split; [reflexivity|].
  destruct (unknown_fields_are_dropped body_with_id unrated_offer seeded_world
              seeded_database H eq_refl eq_refl eq_refl eq_refl)
    as (Hv & Hpost & _ & Hid & _).
  split; [exact Hv|]. split; [exact Hpost|exact Hid].
Defined.

(** ** A store that fails partway *)

Lemma count_documents_taking_writes {E : Pcre} (coll : string) (D : Database)
  (env : dict) (n : nat) (msg : string) :
  fault D = Some (WritesFailAfter n msg) ->
  on_db (count_documents coll []) {| db := Some D; environ := env |}
  = (Ok (Z.of_nat (List.length (documents coll (collections D)))),
     {| db := Some D; environ := env |}).
Proof.
  intros Hf. unfold on_db, count_documents, bind, find, call. simpl.
  rewrite Hf. simpl. unfold ret. do 4 f_equal.
  induction (documents coll (collections D)) as [|d l IH]; simpl; congruence.
Qed.

(** The seed loop on a store that takes [k] more writes, fewer than there
    are documents: the first [k] are stored, and the next one raises. *)
Lemma seed_loop_interrupted (l : list dict) (env : dict) (msg : string) :
  forall (k : nat) (n : Z) (D : Database),
    fault D = Some (WritesFailAfter k msg) ->
    (k < List.length l)%nat ->
    exists D',
      for_each (fun inserted s =>
                  create_document "offer" (OfDict s) ;; ret (inserted + 1)) l n
               {| db := Some D; environ := env |}
      = (Raise (Exception msg), {| db := Some D'; environ := env |})
      /\ fault D' = Some (WritesFailAfter 0 msg)
      /\ offers D' = (offers D ++ stamped_from (next_id D) (firstn k l))%list.
Proof.
  induction l as [|s l IH]; intros k n D Hf Hk; [simpl in Hk; lia|].
  destruct k as [|k].
  - exists D. split; [|split].
    + cbn [for_each]. unfold bind at 1. unfold bind at 1.
      unfold create_document, bind, on_db, insert_one, write_call.
      cbn [db environ]. rewrite Hf. reflexivity.
    + exact Hf.
    + cbn [firstn stamped_from]. now rewrite app_nil_r.
  - simpl in Hk.
    destruct (IH k (n + 1)
                (with_fault (Some (WritesFailAfter k msg))
                   (store_document "offer" s D)) eq_refl ltac:(lia))
      as (D' & Hrun & Hf' & Hdocs).
    exists D'. split; [|split].
    + cbn [for_each]. unfold bind at 1. unfold bind at 1.
      unfold create_document at 1, bind at 1, on_db, insert_one, write_call.
      cbn [db environ as_dict]. rewrite Hf. unfold ret at 1 2. exact Hrun.
    + exact Hf'.
    + rewrite Hdocs. unfold offers, with_fault. cbn [collections next_id firstn].
      rewrite documents_store_document. cbn [stamped_from store_document next_id].
      now rewrite <- app_assoc.
Qed.

(** X24. A seed interrupted by the store leaves a partial set behind.  On an
    empty [offer] collection, when the store takes [k] more writes, fewer
    than the four samples, and then fails: seeding answers 500 with the
    message of the failure, the first [k] samples stay stored, and when [k]
    is not zero a second seed finds the collection non-empty, inserts
    nothing and reports [inserted: 0], so the other samples are never
    added. *)
Theorem interrupted_seed_leaves_a_partial_set {P : Pydantic} {E : Pcre}
  (w : World) (D : Database) (k : nat) (msg : string) :
  db w = Some D ->
  fault D = Some (WritesFailAfter k msg) ->
  offers D = [] ->
  (k < 4)%nat ->
  exists w' D',
    post_api_offers_seed w = (Some (server_error msg), w')
    /\ db w' = Some D'
    /\ offers D' = stamped_from (next_id D) (firstn k sample)
    /\ List.length (offers D') = k
    /\ ((0 < k)%nat ->
        post_api_offers_seed w' = (Some (Response 200 already_seeded), w')).
Proof.
  intros Hdb Hf Hempty Hk. destruct w as [handle env]. simpl in Hdb. subst handle.
  destruct (seed_loop_interrupted sample env msg k 0 D Hf Hk)
    as (D' & Hrun & Hf' & Hdocs).
  rewrite Hempty in Hdocs. cbn [app] in Hdocs.
  assert (Hlen : List.length (offers D') = k).
  { rewrite Hdocs. clear - Hk.
    assert (Hs : forall i l, List.length (stamped_from i l) = List.length l).
    { intros i l. revert i. induction l as [|x l IH]; intros i; simpl; auto. }
    rewrite Hs, length_firstn. simpl. lia. }
  exists {| db := Some D'; environ := env |}, D'.
  split; [|split; [reflexivity|split; [exact Hdocs|split; [exact Hlen|]]]].
  - unfold post_api_offers_seed, serve, seed_offers.
    set (loop := for_each _ sample 0) in *.
    unfold bind at 1, gets. cbn [db].
    unfold try_except, bind at 1.
    rewrite (count_documents_taking_writes "offer" D env k msg Hf).
    unfold offers in Hempty. rewrite Hempty.
    cbn [List.length Z.of_nat Z.ltb Z.compare].
    unfold bind at 1. rewrite Hrun. reflexivity.
  - intros Hpos. unfold post_api_offers_seed, serve, seed_offers.
    set (loop := for_each _ sample 0) in *.
    unfold bind at 1, gets. cbn [db].
    unfold try_except, bind at 1.
    rewrite (count_documents_taking_writes "offer" D' env 0 msg Hf').
    unfold offers in Hlen. rewrite Hlen.
    destruct k as [|k]; [lia|]. reflexivity.
Qed.

Lemma interrupted_seed_leaves_a_partial_set_witness :
  db flaky_world = Some flaky_database
  /\ fault flaky_database = Some (WritesFailAfter 2 "write failed")
  /\ offers flaky_database = []
  /\ (2 < 4)%nat
  /\ exists w' D',
       post_api_offers_seed flaky_world = (Some (server_error "write failed"), w')
       /\ db w' = Some D'
       /\ offers D' = [stored_form (0%N, offer_fast);
                       stored_form (1%N, offer_reliable)]
       /\ post_api_offers_seed w' = (Some (Response 200 already_seeded), w').
Proof.
  split; [reflexivity|]. split; [reflexivity|]. split; [reflexivity|].
  split; [lia|].
  destruct (interrupted_seed_leaves_a_partial_set flaky_world flaky_database 2
              "write failed" eq_refl eq_refl eq_refl ltac:(lia))
    as (w' & D' & Hrun & Hdb & Hdocs & _ & Hagain).
  exists w', D'. split; [exact Hrun|]. split; [exact Hdb|].
  split; [exact Hdocs|]. apply Hagain. lia.
Defined.
